(** * Index constituents, per-symbol metrics and aggregate reports

    A shallow embedding of the data-bearing code of the stock API:
    - [app/api/index_api.py]  (module [IndexApi]),
    - [api/index_api.py]      (module [LegacyIndexApi], the older copy),
    - [app/api/stock_api.py]  (module [StockApi]).

    Python values are embedded as an inductive type, exceptions as an
    explicit [outcome], and calls to the network libraries ([requests],
    [pandas], [yfinance]) read their answers from an explicit environment.
    A number is the rational value of an [int] or of a finite float, and
    float arithmetic rounds to binary64; infinities and NaN are outside
    the model. *)

From Stdlib Require Import ZArith QArith Qround Qpower String List Lia DecimalString Lqa.
From stdpp Require Import base option list gmap strings.
Import ListNotations.

Local Open Scope string_scope.
Local Open Scope list_scope.

(* ====================================================================== *)
(** ** Python runtime: exceptions, values, arithmetic                     *)
(* ====================================================================== *)

Module Py.

(** Subclasses of [Exception] that the modelled code can meet.  The first
    four are subclasses of [requests.exceptions.RequestException]. *)
Inductive exn : Type :=
| Timeout
| ConnectionError
| HTTPError
| JSONDecodeError
| KeyError
| TypeError
| AttributeError
| ValueError
| ZeroDivisionError
| UnicodeDecodeError
| ParserError
| OtherException (cls : string).

Definition is_RequestException (e : exn) : bool :=
  match e with
  | Timeout | ConnectionError | HTTPError | JSONDecodeError => true
  | _ => false
  end.

(** The result of evaluating an expression: a value, or a raised exception. *)
Inductive outcome (A : Type) : Type :=
| Ok (a : A)
| Raise (e : exn).
Arguments Ok {A} a.
Arguments Raise {A} e.

#[global] Instance outcome_ret : MRet outcome := fun A a => Ok a.

#[global] Instance outcome_bind : MBind outcome := fun A B k m =>
  match m with
  | Ok a => k a
  | Raise e => Raise e
  end.

Definition raises {A : Type} (m : outcome A) : Prop := exists e, m = Raise e.

(** Values found in the records of the historical-info backend and in a
    snapshot: [None], a number ([int] or [float]) or a [str]. *)
Inductive pyval : Type :=
| PyNone
| PyNum (q : Q)
| PyStr (s : string).

Definition is_None (v : pyval) : bool :=
  match v with PyNone => true | _ => false end.

Definition Qis_zero (q : Q) : bool := (Qnum q =? 0)%Z.

(** Truth value testing: [None], zero and the empty string are false. *)
Definition truthy (v : pyval) : bool :=
  match v with
  | PyNone => false
  | PyNum q => negb (Qis_zero q)
  | PyStr s => negb (String.eqb s "")
  end.

(** [a >= b]: numbers by value, strings lexicographically, anything else
    is a [TypeError]. *)
Definition py_ge (a b : pyval) : outcome bool :=
  match a, b with
  | PyNum x, PyNum y => Ok (Qle_bool y x)
  | PyStr s, PyStr t => Ok (String.leb t s)
  | _, _ => Raise TypeError
  end.

(** [a > b]. *)
Definition py_gt (a b : pyval) : outcome bool :=
  match a, b with
  | PyNum x, PyNum y => Ok (negb (Qle_bool x y))
  | PyStr s, PyStr t => Ok (String.ltb t s)
  | _, _ => Raise TypeError
  end.

(** Rounding half to even, to the nearest integer. *)
Definition round_half_even (q : Q) : Z :=
  let f := Qfloor q in
  match Qcompare (q - inject_Z f) (1 # 2) with
  | Lt => f
  | Gt => (f + 1)%Z
  | Eq => if Z.even f then f else (f + 1)%Z
  end.

(** Rounding half to even at two decimals, on the exact value; the result
    is kept in lowest terms. *)
Definition round2 (q : Q) : Q := Qred (round_half_even (q * 100) # 100).

(** *** Floats

    A float is a binary64 number; a finite one is the rational [m * 2^e]
    with [|m| < 2^53] and [-1074 <= e].  The sum, quotient and so on of
    two floats is the exact result rounded to the nearest float, ties to
    the even mantissa. *)

Definition pow2 (e : Z) : Q := (2 ^ e)%Q.

(** The exponent [k] with [2^k <= q < 2^(k+1)], for [q > 0]. *)
Definition binade (q : Q) : Z :=
  let k := (Z.log2 (Qnum q) - Z.log2 (Zpos (Qden q)))%Z in
  if Qle_bool (pow2 k) q then k else (k - 1)%Z.

(** The float nearest to [q > 0]: 53 bits of mantissa, on the grid of
    the subnormals below [2^-1022]. *)
Definition round_positive (q : Q) : Q :=
  let e := Z.max (binade q - 52) (-1074) in
  (inject_Z (round_half_even (q / pow2 e)) * pow2 e)%Q.

(** The float nearest to [q], in lowest terms: what [float(q)] is for an
    [int] and for a decimal literal (no overflow: the exponent has no
    upper bound here). *)
Definition b64 (q : Q) : Q :=
  Qred match Qcompare q 0 with
       | Eq => 0
       | Gt => round_positive q
       | Lt => - round_positive (- q)
       end.

(** Float arithmetic; an operand that is not a float is converted first. *)
Definition float_sub (x y : Q) : Q := b64 (b64 x - b64 y).
Definition float_div (x y : Q) : Q := b64 (b64 x / b64 y).
Definition float_mul (x y : Q) : Q := b64 (b64 x * b64 y).

(** [round(x, 2)] on a float: the decimal with two digits nearest to the
    exact value of [x], ties to the even digit, read back as a float. *)
Definition float_round2 (x : Q) : Q := b64 (round2 (b64 x)).

(** [a - b]: defined on numbers only. *)
Definition py_sub (a b : pyval) : outcome pyval :=
  match a, b with
  | PyNum x, PyNum y => Ok (PyNum (float_sub x y))
  | _, _ => Raise TypeError
  end.

(** [a / b], true division. *)
Definition py_truediv (a b : pyval) : outcome pyval :=
  match a, b with
  | PyNum x, PyNum y =>
      if Qis_zero y then Raise ZeroDivisionError else Ok (PyNum (float_div x y))
  | _, _ => Raise TypeError
  end.

(** [a * k] for a numeric literal [k] (a [str] times an [int] literal is
    repetition, which the modelled code never reaches: the left operand
    of its only product is the result of a division). *)
Definition py_mul_num (a : pyval) (k : Q) : outcome pyval :=
  match a with
  | PyNum x => Ok (PyNum (float_mul x k))
  | _ => Raise TypeError
  end.

(** [round(a, 2)]. *)
Definition py_round2 (a : pyval) : outcome pyval :=
  match a with
  | PyNum x => Ok (PyNum (float_round2 x))
  | _ => Raise TypeError
  end.

Section Float.
(** [float(s)] on a [str]: the number it denotes, or [None] where Python
    raises [ValueError]. *)
Variable float_of_str : string -> option Q.

(** [float(v)]. *)
Definition py_float (v : pyval) : outcome pyval :=
  match v with
  | PyNone => Raise TypeError
  | PyNum q => Ok (PyNum q)
  | PyStr s =>
      match float_of_str s with
      | Some q => Ok (PyNum q)
      | None => Raise ValueError
      end
  end.
End Float.

End Py.
Import Py.

(** Code that also talks to the outside world: it reads its answers from,
    and leaves its traces in, a world state [W].  An exception does not
    undo the effects that came before it. *)
Definition io (W A : Type) : Type := W -> outcome A * W.

#[global] Instance io_ret {W} : MRet (io W) := fun A a w => (Ok a, w).

#[global] Instance io_bind {W} : MBind (io W) := fun A B k m w =>
  match m w with
  | (Ok a, w') => k a w'
  | (Raise e, w') => (Raise e, w')
  end.

(** An effect-free computation, run inside [io]. *)
Definition lift {W A : Type} (m : outcome A) : io W A := fun w => (m, w).

(** [try: body except Exception: return handler], both returning values. *)
Definition try_except {W A : Type} (body : io W A) (handler : A) : W -> A * W :=
  fun w =>
    match body w with
    | (Ok a, w') => (a, w')
    | (Raise _, w') => (handler, w')
    end.

(* ====================================================================== *)
(** ** app/api/index_api.py                                               *)
(* ====================================================================== *)

Module IndexApi.

Definition NSE_SUFFIX : string := ".NS".

(** *** 1. Index symbol fetch functions *)

Definition get_sensex_30_symbols : list string :=
  [ "RELIANCE"; "HDFCBANK"; "ICICIBANK"; "INFY"; "HINDUNILVR"; "TCS"; "KOTAKBANK";
    "AXISBANK"; "SBIN"; "LT"; "ASIANPAINT"; "MARUTI"; "BAJFINANCE"; "HCLTECH";
    "TITAN"; "SUNPHARMA"; "NESTLEIND"; "ITC"; "TATASTEEL"; "POWERGRID";
    "INDUSINDBK"; "ULTRACEMCO"; "TECHM"; "M&M"; "TATASTEEL"; "BAJAJFINSV";
    "HINDALCO"; "WIPRO"; "BHARTIARTL"; "DRREDDY" ].

(** A [pandas] data frame: column header to cells. *)
Abbreviation dataframe := (gmap string (list string)).

(** What [session.get] hands back.  [content_csv] is what
    [pd.read_csv(StringIO(response.content.decode('utf-8')))] makes of the
    body: a data frame, or the exception raised by decoding or parsing. *)
Record http_response : Type := {
  status_code : nat;
  content_csv : outcome dataframe
}.

(** The NSE site as one call of [get_nifty_50_symbols] sees it: the answer
    to the request for the landing page (only its failure matters) and the
    answer to the request for the constituent list. *)
Record nse_archive : Type := {
  landing_get : outcome unit;
  nifty50list_get : outcome http_response
}.

(** [response.raise_for_status()]: [HTTPError] on a 4xx or 5xx status. *)
Definition raise_for_status (response : http_response) : outcome unit :=
  if (400 <=? status_code response)%nat && (status_code response <? 600)%nat
  then Raise HTTPError
  else Ok tt.

(** [df['Symbol'].tolist()]. *)
Definition symbol_column (df : dataframe) : outcome (list string) :=
  match df !! "Symbol" with
  | Some cells => Ok cells
  | None => Raise KeyError
  end.

Definition NIFTY_FALLBACK : list string :=
  [ "RELIANCE"; "HDFCBANK"; "TCS"; "ICICIBANK"; "INFY"; "KOTAKBANK"; "HINDUNILVR" ].

(** The body of the [try] block of [get_nifty_50_symbols]. *)
Definition nifty_download (nse : nse_archive) : outcome (list string) :=
  _ ← landing_get nse;
  response ← nifty50list_get nse;
  _ ← raise_for_status response;
  df ← content_csv response;
  symbol_column df.

Definition get_nifty_50_symbols (nse : nse_archive) : list string :=
  let symbol_list := NIFTY_FALLBACK in
  match nifty_download nse with
  | Ok downloaded => downloaded
  | Raise e =>
      if is_RequestException e then symbol_list      (* except RequestException *)
      else match e with
           | KeyError => symbol_list                  (* except KeyError *)
           | _ => symbol_list                         (* except Exception *)
           end
  end.

(** *** 2. Core data fetch function for a single stock *)

(** The [yfinance] backend: [ticker.info] and the [Close] column of
    [ticker.history(period="1d", interval="1d")], by ticker symbol.  An
    empty column stands for an empty frame. *)
Record yfinance (W : Type) : Type := {
  ticker_info : string -> io W (gmap string pyval);
  ticker_history : string -> io W (list Q)
}.
Arguments ticker_info {W} _ _.
Arguments ticker_history {W} _ _.

(** The dictionary returned for one stock. *)
Record snapshot : Type := {
  symbol : string;
  name : pyval;
  lastPrice : pyval;
  high52Week : pyval;
  low52Week : pyval;
  lowNearnessPercentage : pyval;
  upcomingEvents : list pyval;
  detailLink : string
}.

(** [d.get(key)] and [d.get(key, fallback)]. *)
Definition dict_get (d : gmap string pyval) (key : string) (fallback : pyval) : pyval :=
  default fallback (d !! key).

(** The nearness of [price] to the 52-week low, as a percentage of the
    52-week range (the [if price and low_52w and high_52w and ...] block). *)
Definition low_nearness (price low_52w high_52w : pyval) : outcome pyval :=
  guard ← (if truthy price && truthy low_52w && truthy high_52w
           then py_ge price low_52w else Ok false);
  if guard : bool then
    price_range ← py_sub high_52w low_52w;
    positive ← py_gt price_range (PyNum 0);
    if positive : bool then
      above_low ← py_sub price low_52w;
      ratio ← py_truediv above_low price_range;
      percent ← py_mul_num ratio 100;
      py_round2 percent
    else Ok (PyNum 0)
  else Ok PyNone.

Definition NSE_DETAIL_URL (symbol : string) : string :=
  "https://www.nseindia.com/get-quotes/equity?symbol=" +:+ symbol.

(** The dictionary of the [except Exception] branch. *)
Definition error_snapshot (symbol : string) : snapshot :=
  {| symbol := symbol;
     name := PyStr ("Error/No Data for " +:+ symbol);
     lastPrice := PyNone;
     high52Week := PyNone;
     low52Week := PyNone;
     lowNearnessPercentage := PyNone;
     upcomingEvents := [];
     detailLink := NSE_DETAIL_URL symbol |}.

Section Fetch.
Context {W : Type}.
Variable float_of_str : string -> option Q.
Variable yf : yfinance W.

(** [last_price]: the previous close of the info record, else the last
    close of one day of history, else [None]. *)
Definition last_price_of (ticker_symbol : string) (info : gmap string pyval)
  : io W pyval :=
  let last_price :=
    dict_get info "previousClose" (dict_get info "regularMarketPreviousClose" PyNone) in
  if is_None last_price then
    history ← ticker_history yf ticker_symbol;
    mret (match history with
          | [] => PyNone
          | _ :: _ => PyNum (List.last history 0%Q)
          end)
  else mret last_price.

(** The body of the [try] block of [fetch_single_stock_metrics]. *)
Definition metrics_body (symbol : string) : io W snapshot :=
  let ticker_symbol := symbol +:+ NSE_SUFFIX in
  info ← ticker_info yf ticker_symbol;
  last_price ← last_price_of ticker_symbol info;
  let price := last_price in
  let high_52w := dict_get info "fiftyTwoWeekHigh" PyNone in
  let low_52w := dict_get info "fiftyTwoWeekLow" PyNone in
  low_nearness_percent ← lift (low_nearness price low_52w high_52w);
  let actions := [] in
  rounded_price ← lift (if truthy price
                        then as_float ← py_float float_of_str price; py_round2 as_float
                        else Ok PyNone);
  mret {| symbol := symbol;
          name := dict_get info "longName" (PyStr symbol);
          lastPrice := rounded_price;
          high52Week := high_52w;
          low52Week := low_52w;
          lowNearnessPercentage := low_nearness_percent;
          upcomingEvents := actions;
          detailLink := NSE_DETAIL_URL symbol |}.

Definition fetch_single_stock_metrics (symbol : string) : W -> snapshot * W :=
  try_except (metrics_body symbol) (error_snapshot symbol).
End Fetch.


(** *** 3. API endpoints *)

(** The JSON object handed to [jsonify]; a key that the endpoint does not
    emit is [None]. *)
Record report : Type := {
  status : string;
  message : option string;
  index : option string;
  total_constituents : option nat;
  total_stocks_fetched : option nat;
  data : list snapshot
}.

Section Endpoints.
Context {W : Type}.
Variable float_of_str : string -> option Q.
Variable yf : yfinance W.

(** [for symbol in symbols_to_fetch: ...], started with [results]. *)
Fixpoint fetch_loop (symbols_to_fetch : list string) (results : list snapshot)
  : W -> list snapshot * W :=
  fun w =>
    match symbols_to_fetch with
    | [] => (results, w)
    | symbol :: rest =>
        let '(data, w') := fetch_single_stock_metrics float_of_str yf symbol w in
        let results' :=
          if negb (is_None (lastPrice data)) then results ++ [data] else results in
        fetch_loop rest results' w'
    end.

Definition get_nifty50_data (nse : nse_archive) : W -> report * W :=
  fun w =>
    let symbols_to_fetch := get_nifty_50_symbols nse in
    let '(results, w') := fetch_loop symbols_to_fetch [] w in
    ({| status := "success";
        message := None;
        index := Some "NIFTY50";
        total_constituents := Some (length symbols_to_fetch);
        total_stocks_fetched := Some (length results);
        data := results |}, w').

Definition get_sensex_data : W -> report * W :=
  fun w =>
    let symbols_to_fetch := get_sensex_30_symbols in
    let '(results, w') := fetch_loop symbols_to_fetch [] w in
    ({| status := "success";
        message := None;
        index := Some "SENSEX";
        total_constituents := Some (length symbols_to_fetch);
        total_stocks_fetched := Some (length results);
        data := results |}, w').
End Endpoints.

End IndexApi.

(* ====================================================================== *)
(** ** api/index_api.py                                                   *)
(* ====================================================================== *)

(** The older copy.  Its [get_sensex_30_symbols], [get_nifty_50_symbols],
    [fetch_single_stock_metrics] (up to the time-out handed to
    [ticker.history]) and [get_sensex_data] are, statement for statement,
    those of [app/api/index_api.py]; its [get_nifty50_data] is not. *)
Module LegacyIndexApi.
Import IndexApi.

Definition get_sensex_30_symbols : list string := IndexApi.get_sensex_30_symbols.
Definition get_nifty_50_symbols : nse_archive -> list string :=
  IndexApi.get_nifty_50_symbols.

Section Endpoints.
Context {W : Type}.
Variable float_of_str : string -> option Q.
Variable yf : yfinance W.

Definition fetch_single_stock_metrics : string -> W -> snapshot * W :=
  IndexApi.fetch_single_stock_metrics float_of_str yf.

(** [[fetch_single_stock_metrics(symbol) for symbol in symbols_to_fetch
      if fetch_single_stock_metrics(symbol)['lastPrice'] is not None]]:
    the condition fetches the symbol once, the element fetches it again. *)
Fixpoint fetch_twice (symbols_to_fetch : list string) : W -> list snapshot * W :=
  fun w =>
    match symbols_to_fetch with
    | [] => ([], w)
    | symbol :: rest =>
        let '(probe, w1) := fetch_single_stock_metrics symbol w in
        if negb (is_None (lastPrice probe)) then
          let '(element, w2) := fetch_single_stock_metrics symbol w1 in
          let '(others, w3) := fetch_twice rest w2 in
          (element :: others, w3)
        else fetch_twice rest w1
    end.

Definition get_nifty50_data (nse : nse_archive) : W -> report * W :=
  fun w =>
    let symbols_to_fetch := get_nifty_50_symbols nse in
    if bool_decide (symbols_to_fetch = [])
       || bool_decide (symbols_to_fetch = NIFTY_FALLBACK)
    then
      let '(items, w') := fetch_twice symbols_to_fetch w in
      ({| status := "warning";
          message := Some "NSE data download failed. Using a small, cached list for demonstration/fallback.";
          index := None;
          total_constituents := None;
          total_stocks_fetched := None;
          data := items |}, w')
    else
      let '(results, w') := fetch_loop float_of_str yf symbols_to_fetch [] w in
      ({| status := "success";
          message := None;
          index := Some "NIFTY50";
          total_constituents := Some (length symbols_to_fetch);
          total_stocks_fetched := Some (length results);
          data := results |}, w').

Definition get_sensex_data : W -> report * W :=
  fun w =>
    let symbols_to_fetch := get_sensex_30_symbols in
    let '(results, w') := fetch_loop float_of_str yf symbols_to_fetch [] w in
    ({| status := "success";
        message := None;
        index := Some "SENSEX";
        total_constituents := Some (length symbols_to_fetch);
        total_stocks_fetched := Some (length results);
        data := results |}, w').
End Endpoints.

End LegacyIndexApi.

(* ====================================================================== *)
(** ** app/api/stock_api.py                                               *)
(* ====================================================================== *)

Module StockApi.

(** What [response.json()] returns: [None], [bool], [int], [float], [str],
    [list] or [dict].  The members of a [dict] have distinct keys. *)
#[warnings="-register-all"]
Inductive json : Type :=
| JNull
| JBool (b : bool)
| JInt (z : Z)
| JFloat (q : Q)
| JStr (s : string)
| JArr (items : list json)
| JObj (members : list (string * json)).

Fixpoint assoc (key : string) (members : list (string * json)) : option json :=
  match members with
  | [] => None
  | (k, v) :: rest => if String.eqb k key then Some v else assoc key rest
  end.

Definition json_is_None (v : json) : bool :=
  match v with JNull => true | _ => false end.

(** Truth value testing. *)
Definition json_truthy (v : json) : bool :=
  match v with
  | JNull => false
  | JBool b => b
  | JInt z => negb (z =? 0)%Z
  | JFloat q => negb (Qis_zero q)
  | JStr s => negb (String.eqb s "")
  | JArr items => match items with [] => false | _ :: _ => true end
  | JObj members => match members with [] => false | _ :: _ => true end
  end.

(** [key in v] for a [str] key: a key of a [dict], an element of a [list],
    a substring of a [str]; other values are not containers. *)
Definition py_contains (key : string) (v : json) : outcome bool :=
  match v with
  | JObj members => Ok (bool_decide (is_Some (assoc key members)))
  | JArr items =>
      Ok (existsb (fun item => match item with
                               | JStr s => String.eqb s key
                               | _ => false
                               end) items)
  | JStr s => Ok (bool_decide (is_Some (String.index 0 key s)))
  | _ => Raise TypeError
  end.

(** [v[key]] for a [str] key. *)
Definition py_getitem (v : json) (key : string) : outcome json :=
  match v with
  | JObj members =>
      match assoc key members with
      | Some x => Ok x
      | None => Raise KeyError
      end
  | _ => Raise TypeError
  end.

(** [v.get(key)]: only a [dict] has the method. *)
Definition py_get (v : json) (key : string) : outcome json :=
  match v with
  | JObj members => Ok (default JNull (assoc key members))
  | _ => Raise AttributeError
  end.

Fixpoint repeat_string (s : string) (n : nat) : string :=
  match n with
  | O => ""
  | S n' => s +:+ repeat_string s n'
  end.

(** An [int], or a [bool] used as one. *)
Definition as_int (v : json) : option Z :=
  match v with
  | JInt z => Some z
  | JBool b => Some (if b then 1 else 0)%Z
  | _ => None
  end.

(** [a * b]: the product of two numbers (an [int] unless one is a
    [float]), or a [str] or [list] repeated an [int] number of times. *)
Definition py_mul (a b : json) : outcome json :=
  match as_int a, as_int b with
  | Some x, Some y => Ok (JInt (x * y))
  | Some x, None =>
      match b with
      | JFloat q => Ok (JFloat (inject_Z x * q))
      | JStr s => Ok (JStr (repeat_string s (Z.to_nat x)))
      | JArr items => Ok (JArr (concat (repeat items (Z.to_nat x))))
      | _ => Raise TypeError
      end
  | None, Some y =>
      match a with
      | JFloat q => Ok (JFloat (q * inject_Z y))
      | JStr s => Ok (JStr (repeat_string s (Z.to_nat y)))
      | JArr items => Ok (JArr (concat (repeat items (Z.to_nat y))))
      | _ => Raise TypeError
      end
  | None, None =>
      match a, b with
      | JFloat p, JFloat q => Ok (JFloat (p * q))
      | _, _ => Raise TypeError
      end
  end.

Definition NSE_BASE_URL : string := "https://www.nseindia.com/".
Definition QUOTE_API_URL : string := "https://www.nseindia.com/api/quote-equity?symbol=".

(** What [SESSION.get(url)] hands back; [json_body] is what
    [response.json()] returns or raises. *)
Record http_response : Type := {
  status_code : nat;
  json_body : outcome json
}.

(** The NSE site as one call of [fetch_live_quote_data] sees it through the
    shared session, by URL. *)
Record nse_site : Type := {
  session_get : string -> outcome http_response
}.

Definition raise_for_status (response : http_response) : outcome unit :=
  if (400 <=? status_code response)%nat && (status_code response <? 600)%nat
  then Raise HTTPError
  else Ok tt.

(** The dictionary built for a quote. *)
Record quote : Type := {
  symbol : json;
  companyName : json;
  lastPrice : json;
  change : json;
  pChange : json;
  high52Week : json;
  low52Week : json;
  marketCapital : json;
  industry : json
}.

(** [v[k1][k2]]. *)
Definition py_getitem2 (v : json) (k1 k2 : string) : outcome json :=
  inner ← py_getitem v k1; py_getitem inner k2.

(** [not data or 'info' not in data or data['info'].get('symbol') is None]. *)
Definition no_symbol (data : json) : outcome bool :=
  if negb (json_truthy data) then Ok true
  else
    has_info ← py_contains "info" data;
    if negb has_info then Ok true
    else
      info ← py_getitem data "info";
      sym ← py_get info "symbol";
      Ok (json_is_None sym).

(** The dictionary literal [quote = {...}]. *)
Definition map_quote (data : json) : outcome quote :=
  v_symbol ← py_getitem2 data "info" "symbol";
  v_companyName ← py_getitem2 data "info" "companyName";
  v_lastPrice ← py_getitem2 data "priceInfo" "lastPrice";
  v_change ← py_getitem2 data "priceInfo" "change";
  v_pChange ← py_getitem2 data "priceInfo" "pChange";
  v_high52Week ← py_getitem2 data "securityWisePCR" "high52Week";
  v_low52Week ← py_getitem2 data "securityWisePCR" "low52Week";
  issuedCap ← py_getitem2 data "securityInfo" "issuedCap";
  price ← py_getitem2 data "priceInfo" "lastPrice";
  v_marketCapital ← py_mul issuedCap price;
  v_industry ← py_getitem2 data "metadata" "industry";
  Ok {| symbol := v_symbol;
        companyName := v_companyName;
        lastPrice := v_lastPrice;
        change := v_change;
        pChange := v_pChange;
        high52Week := v_high52Week;
        low52Week := v_low52Week;
        marketCapital := v_marketCapital;
        industry := v_industry |}.

(** The body of the outer [try] block of [fetch_live_quote_data]; the
    inner [try] turns a [JSONDecodeError] of [response.json()] into
    [return None]. *)
Definition live_quote_body (site : nse_site) (symbol : string)
  : outcome (option quote) :=
  let url := QUOTE_API_URL +:+ symbol in
  _ ← session_get site NSE_BASE_URL;
  response ← session_get site url;
  _ ← raise_for_status response;
  match json_body response with
  | Raise JSONDecodeError => Ok None
  | Raise e => Raise e
  | Ok data =>
      absent ← no_symbol data;
      if absent : bool then Ok None
      else q ← map_quote data; Ok (Some q)
  end.

Definition fetch_live_quote_data (site : nse_site) (symbol : string) : option quote :=
  match live_quote_body site symbol with
  | Ok result => result
  | Raise _ => None
  end.

End StockApi.

(* ====================================================================== *)
(** ** app/api/stock_api.py: the symbol list and the endpoint             *)
(* ====================================================================== *)

Module StockApiEndpoint.
Import StockApi.

(** The list returned by the [except] branch of [get_nifty_50_symbols]. *)
Definition NIFTY_FALLBACK : list string :=
  [ "RELIANCE"; "TCS"; "HDFCBANK"; "ICICIBANK"; "INFY"; "SBIN" ].

(** [get_nifty_50_symbols]: the two requests, the status check, the
    parsing and the column lookup are those of
    [IndexApi.nifty_download], made through the shared session; one
    handler catches everything. *)
Definition get_nifty_50_symbols (nse : IndexApi.nse_archive) : list string :=
  match IndexApi.nifty_download nse with
  | Ok downloaded => downloaded
  | Raise _ => NIFTY_FALLBACK
  end.

(** What the endpoint returns: the JSON object and the HTTP status. *)
Record response : Type := {
  http_status : nat;
  status : string;
  message : option string;
  data : option quote
}.

Section Endpoint.
(** [str.upper]. *)
Variable upper : string -> string.
(** [str] of a list of strings, as an f-string renders it. *)
Variable str_of_list : list string -> string.
(** The list fetched once when the module is loaded. *)
Variable NIFTY_SYMBOLS : list string.
(** [nse_tool.is_valid_code]. *)
Variable is_valid_code : string -> outcome bool.
Variable site : nse_site.

Definition not_recognized_message (ticker : string) : string :=
  "Symbol '" +:+ ticker +:+
  "' is not a recognized Nifty 50 or general NSE ticker. Try one of: " +:+
  str_of_list (take 5 NIFTY_SYMBOLS).

Definition no_quote_message (ticker : string) : string :=
  "Could not retrieve live quote for symbol: " +:+ ticker +:+
  ". Data may be unavailable (e.g., market closed or bad ticker).".

Definition get_stock_data (symbol : string) : outcome response :=
  let ticker := upper symbol in
  unknown ← (if negb (bool_decide (ticker ∈ NIFTY_SYMBOLS))
             then valid ← is_valid_code ticker; Ok (negb valid)
             else Ok false);
  if unknown : bool then
    Ok {| http_status := 404;
          status := "error";
          message := Some (not_recognized_message ticker);
          data := None |}
  else
    match fetch_live_quote_data site ticker with
    | None =>
        Ok {| http_status := 404;
              status := "error";
              message := Some (no_quote_message ticker);
              data := None |}
    | Some q =>
        Ok {| http_status := 200;
              status := "success";
              message := None;
              data := Some q |}
    end.
End Endpoint.

End StockApiEndpoint.

(* ====================================================================== *)
(** ** app/api/nse_data_fetcher.py                                        *)
(* ====================================================================== *)

Module NseDataFetcher.
Import IndexApi.

(** [get_nifty_50_symbols]: the [try] block is that of
    [IndexApi.nifty_download]; each of the three handlers returns [None]. *)
Definition get_nifty_50_symbols (nse : nse_archive) : option (list string) :=
  match nifty_download nse with
  | Ok symbol_list => Some symbol_list
  | Raise e =>
      if is_RequestException e then None
      else match e with
           | KeyError => None
           | _ => None
           end
  end.

(** The test [if nifty_symbols_list:] of the script that follows: whether
    the analysis branch is taken. *)
Definition analysis_starts (nse : nse_archive) : bool :=
  match get_nifty_50_symbols nse with
  | Some (_ :: _) => true
  | Some [] => false
  | None => false
  end.

End NseDataFetcher.

(* ====================================================================== *)
(** ** app/api/stock_project_main.py                                      *)
(* ====================================================================== *)

Module StockProjectMain.
Import IndexApi.

(** The body of the [try] block of [get_nifty_50_constituents]: it stops
    at the data frame and reads no column. *)
Definition constituents_download (nse : nse_archive) : outcome dataframe :=
  _ ← landing_get nse;
  response ← nifty50list_get nse;
  _ ← raise_for_status response;
  content_csv response.

(** One run of [get_nifty_50_constituents] (the cache around it replays
    the result of an earlier run). *)
Definition get_nifty_50_constituents (nse : nse_archive) : option dataframe :=
  match constituents_download nse with
  | Ok df => Some df
  | Raise e =>
      if is_RequestException e then None
      else match e with
           | KeyError => None
           | _ => None
           end
  end.

End StockProjectMain.

(* ====================================================================== *)
(** ** app/api/historical_api.py                                          *)
(* ====================================================================== *)

Module HistoricalApi.

(** A calendar date. *)
Record date : Type := { year : Z; month : Z; day : Z }.

Definition is_leap (y : Z) : bool :=
  (y mod 4 =? 0)%Z && (negb (y mod 100 =? 0)%Z || (y mod 400 =? 0)%Z).

Definition days_in_month (y m : Z) : Z :=
  if (m =? 2)%Z then (if is_leap y then 29 else 28)%Z
  else if (m =? 4)%Z || (m =? 6)%Z || (m =? 9)%Z || (m =? 11)%Z then 30%Z
  else 31%Z.

Definition valid_date (d : date) : bool :=
  (1 <=? year d)%Z && (year d <=? 9999)%Z &&
  (1 <=? month d)%Z && (month d <=? 12)%Z &&
  (1 <=? day d)%Z && (day d <=? days_in_month (year d) (month d))%Z.

(** [date(y, m, d)]: [ValueError] unless the date exists. *)
Definition py_date (y m d : Z) : outcome date :=
  let candidate := {| year := y; month := m; day := d |} in
  if valid_date candidate then Ok candidate else Raise ValueError.

(** [START_DATE], computed from [END_DATE = date.today()] when the module
    is loaded. *)
Definition START_DATE (END_DATE : date) : outcome date :=
  py_date (year END_DATE - 2) (month END_DATE) (day END_DATE).

(** [str] of an [int]. *)
Definition decimal (z : Z) : string := NilZero.string_of_int (Z.to_int z).

(** Zeros on the left, up to [width] characters. *)
Definition zero_pad (width : nat) (s : string) : string :=
  StockApi.repeat_string "0" (width - String.length s) +:+ s.

(** ['%Y-%m-%d'], for a date with a non-negative year: what [str] gives
    for a [date] and what [strftime('%Y-%m-%d')] gives for the time stamp
    of a row (whose year has four digits). *)
Definition isoformat (d : date) : string :=
  zero_pad 4 (decimal (year d)) +:+ "-" +:+
  zero_pad 2 (decimal (month d)) +:+ "-" +:+
  zero_pad 2 (decimal (day d)).

(** [int(x)] on a float: towards zero. *)
Definition py_int (x : Q) : Z := (Qnum x ÷ Zpos (Qden x))%Z.

Definition NSE_SUFFIX : string := ".NS".

(** A row of [ticker.history(...)]. *)
Record history_row : Type := {
  row_date : date;
  row_Open : Q;
  row_High : Q;
  row_Low : Q;
  row_Close : Q;
  row_Volume : Q
}.

(** A split ratio [n / d], as [yfinance] lists it: only actual splits are
    listed, so the ratio is positive. *)
Record ratio : Type := { ratio_num : positive; ratio_den : positive }.

(** The backend: [ticker.info], [ticker.history(start, end)],
    [ticker.dividends] and [ticker.splits], by ticker symbol. *)
Record yfinance (W : Type) : Type := {
  ticker_info : string -> io W (gmap string pyval);
  ticker_history : string -> date -> date -> io W (list history_row);
  ticker_dividends : string -> io W (list (date * Q));
  ticker_splits : string -> io W (list (date * ratio))
}.
Arguments ticker_info {W} _ _.
Arguments ticker_history {W} _ _ _ _.
Arguments ticker_dividends {W} _ _.
Arguments ticker_splits {W} _ _.

Record metrics : Type := { low52Week : pyval; high52Week : pyval }.

(** An element of [eod_list]. *)
Record eod : Type := {
  eod_date : string;
  eod_open : Q;
  eod_high : Q;
  eod_low : Q;
  eod_close : Q;
  eod_volume : Z
}.

(** An element of [corporate_actions]. *)
Record action : Type := {
  action_date : string;
  action_type : string;
  action_value : pyval
}.

(** The dictionary returned by [fetch_stock_data]: the one with the key
    ["error"], or the one with the three data keys. *)
Inductive stock_data : Type :=
| ErrorDict (error : string)
| DataDict (metrics_ : metrics) (historicalData : list eod)
           (corporateActions : list action).

Definition eod_of_row (row : history_row) : eod :=
  {| eod_date := isoformat (row_date row);
     eod_open := round2 (row_Open row);
     eod_high := round2 (row_High row);
     eod_low := round2 (row_Low row);
     eod_close := round2 (row_Close row);
     eod_volume := py_int (row_Volume row) |}.

Definition dividend_action (row : date * Q) : action :=
  {| action_date := isoformat row.1;
     action_type := "Dividend";
     action_value := PyNum (round2 row.2) |}.

(** [f"1:{round(1/row['Stock Splits'])}"]. *)
Definition split_value (r : ratio) : string :=
  "1:" +:+ decimal (round_half_even (Zpos (ratio_den r) # ratio_num r)).

Definition split_action (row : date * ratio) : action :=
  {| action_date := isoformat row.1;
     action_type := "Split";
     action_value := PyStr (split_value row.2) |}.

Section Fetch.
Context {W : Type}.
Variable yf : yfinance W.
Variables START END : date.

Definition fetch_stock_data (symbol : string) : io W stock_data :=
  let ticker_symbol := symbol +:+ NSE_SUFFIX in
  info ← ticker_info yf ticker_symbol;
  let metrics :=
    {| low52Week := IndexApi.dict_get info "fiftyTwoWeekLow" PyNone;
       high52Week := IndexApi.dict_get info "fiftyTwoWeekHigh" PyNone |} in
  df_history ← ticker_history yf ticker_symbol START END;
  match df_history with
  | [] =>
      mret (ErrorDict ("No historical data found for " +:+ symbol +:+
                       " on Yahoo Finance."))
  | _ :: _ =>
      let eod_list := map eod_of_row df_history in
      df_dividends ← ticker_dividends yf ticker_symbol;
      let dividends := map dividend_action df_dividends in
      df_splits ← ticker_splits yf ticker_symbol;
      let corporate_actions := dividends ++ map split_action df_splits in
      mret (DataDict metrics eod_list corporate_actions)
  end.

(** What the endpoint returns: the JSON object and the HTTP status. *)
Record response : Type := {
  http_status : nat;
  status : string;
  message : option string;
  symbol : option string;
  data_source : option string;
  date_range : option string;
  body : option (metrics * list eod * list action)
}.

(** [str.upper]. *)
Variable upper : string -> string.

Definition get_historical_stock_data (symbol_ : string) : io W response :=
  let ticker := upper symbol_ in
  data ← fetch_stock_data ticker;
  match data with
  | ErrorDict error =>
      mret {| http_status := 404;
              status := "error";
              message := Some error;
              symbol := None;
              data_source := None;
              date_range := None;
              body := None |}
  | DataDict m historicalData corporateActions =>
      mret {| http_status := 200;
              status := "success";
              message := None;
              symbol := Some ticker;
              data_source := Some "Yahoo Finance (via yfinance)";
              date_range := Some (isoformat START +:+ " to " +:+ isoformat END);
              body := Some (m, historicalData, corporateActions) |}
  end.
End Fetch.

End HistoricalApi.

(* ====================================================================== *)
(** ** The properties under study, and environments to run the code in    *)
(* ====================================================================== *)

Module Props.
Import IndexApi.




(** The ways the remote source of the constituent list can fail. *)
Inductive remote_failure (nse : nse_archive) : Prop :=
| landing_unreachable e :
    landing_get nse = Raise e -> remote_failure nse
| list_unreachable e :
    nifty50list_get nse = Raise e -> remote_failure nse
| http_error_status response :
    nifty50list_get nse = Ok response ->
    (400 <= status_code response < 600)%nat -> remote_failure nse
| malformed_csv response e :
    nifty50list_get nse = Ok response ->
    content_csv response = Raise e -> remote_failure nse
| missing_symbol_column response df :
    nifty50list_get nse = Ok response ->
    content_csv response = Ok df ->
    df !! "Symbol" = None -> remote_failure nse.

(** A backend fault met while one symbol is fetched: [ticker.info] raises,
    or [ticker.history] raises when it is asked, or the nearness
    computation raises on the values found. *)
Inductive backend_fault {W} (yf : yfinance W) (symbol : string) (w : W) : Prop :=
| info_fault e w1 :
    ticker_info yf (symbol +:+ NSE_SUFFIX) w = (Raise e, w1) ->
    backend_fault yf symbol w
| history_fault info w1 e w2 :
    ticker_info yf (symbol +:+ NSE_SUFFIX) w = (Ok info, w1) ->
    dict_get info "previousClose" (dict_get info "regularMarketPreviousClose" PyNone) = PyNone ->
    ticker_history yf (symbol +:+ NSE_SUFFIX) w1 = (Raise e, w2) ->
    backend_fault yf symbol w
| nearness_fault info w1 price w2 e :
    ticker_info yf (symbol +:+ NSE_SUFFIX) w = (Ok info, w1) ->
    last_price_of yf (symbol +:+ NSE_SUFFIX) info w1 = (Ok price, w2) ->
    low_nearness price (dict_get info "fiftyTwoWeekLow" PyNone)
                       (dict_get info "fiftyTwoWeekHigh" PyNone) = Raise e ->
    backend_fault yf symbol w.

Section Runs.
Context {W : Type}.
Variable float_of_str : string -> option Q.
Variable yf : yfinance W.

(** [round(float(price), 2) if price else None]. *)
Definition rounded_price_of (price : pyval) : outcome pyval :=
  if truthy price
  then as_float ← py_float float_of_str price; py_round2 as_float
  else Ok PyNone.

(** A run of [fetch_single_stock_metrics] that does not end in the
    [except] branch: the values met on the way and the snapshot built. *)
Inductive normal_run (symbol : string) (w : W) : snapshot -> W -> Prop :=
| normal_run_intro info w1 price w2 near rounded :
    ticker_info yf (symbol +:+ NSE_SUFFIX) w = (Ok info, w1) ->
    last_price_of yf (symbol +:+ NSE_SUFFIX) info w1 = (Ok price, w2) ->
    low_nearness price (dict_get info "fiftyTwoWeekLow" PyNone)
                       (dict_get info "fiftyTwoWeekHigh" PyNone) = Ok near ->
    rounded_price_of price = Ok rounded ->
    normal_run symbol w
      {| symbol := symbol;
         name := dict_get info "longName" (PyStr symbol);
         lastPrice := rounded;
         high52Week := dict_get info "fiftyTwoWeekHigh" PyNone;
         low52Week := dict_get info "fiftyTwoWeekLow" PyNone;
         lowNearnessPercentage := near;
         upcomingEvents := [];
         detailLink := NSE_DETAIL_URL symbol |} w2.
End Runs.

Definition has_price (s : snapshot) : bool := negb (is_None (lastPrice s)).

(** What an aggregate report owes to the list of symbols it was built
    from: the two counts, priced items only, and the order of the list
    (the items are what is left of one snapshot per symbol, in list order,
    after the unpriced ones are dropped). *)
Definition report_invariant (symbols : list string) (r : report) : Prop :=
  total_constituents r = Some (length symbols) /\
  (exists fetched, total_stocks_fetched r = Some fetched /\
                   (0 <= fetched <= length symbols)%nat) /\
  Forall (fun s => lastPrice s <> PyNone) (data r) /\
  (exists snaps, map symbol snaps = symbols /\ data r = List.filter has_price snaps).

(** The test that opens the older [get_nifty50_data]. *)
Definition legacy_warns (symbols : list string) : bool :=
  bool_decide (symbols = []) || bool_decide (symbols = NIFTY_FALLBACK).

(** One snapshot per symbol, in list order. *)
Fixpoint fetch_each {W} (float_of_str : string -> option Q) (yf : yfinance W)
    (symbols : list string) : W -> list snapshot * W :=
  fun w =>
    match symbols with
    | [] => ([], w)
    | symbol :: rest =>
        let '(s, w1) := fetch_single_stock_metrics float_of_str yf symbol w in
        let '(others, w2) := fetch_each float_of_str yf rest w1 in
        (s :: others, w2)
    end.

(** The value at the path [info.symbol] of a quote document, if the path
    exists. *)
Definition info_symbol (data : StockApi.json) : option StockApi.json :=
  match data with
  | StockApi.JObj members =>
      match StockApi.assoc "info" members with
      | Some (StockApi.JObj info) => StockApi.assoc "symbol" info
      | _ => None
      end
  | _ => None
  end.

End Props.

(** Environments to run the code in. *)
Module Fixtures.
Import IndexApi.

(** No string is a number. *)
Definition no_float : string -> option Q := fun _ => None.

(** The archive times out on the first request. *)
Definition nse_timeout : nse_archive :=
  {| landing_get := Raise Timeout; nifty50list_get := Raise Timeout |}.

(** The archive answers [200] with a document that has the header
    [Symbol] and no row. *)
Definition nse_header_only : nse_archive :=
  {| landing_get := Ok tt;
     nifty50list_get :=
       Ok {| status_code := 200; content_csv := Ok {[ "Symbol" := [] ]} |} |}.

(** The archive answers [304] with a one-row document. *)
Definition nse_not_modified : nse_archive :=
  {| landing_get := Ok tt;
     nifty50list_get :=
       Ok {| status_code := 304; content_csv := Ok {[ "Symbol" := ["SBIN"] ]} |} |}.

(** The archive answers [200] with a document whose column [Symbol]
    holds the seven symbols of the fallback list. *)
Definition nse_serving_fallback : nse_archive :=
  {| landing_get := Ok tt;
     nifty50list_get :=
       Ok {| status_code := 200;
             content_csv := Ok {[ "Symbol" := NIFTY_FALLBACK ]} |} |}.

(** The archive answers [200] with a two-row document. *)
Definition nse_two_rows : nse_archive :=
  {| landing_get := Ok tt;
     nifty50list_get :=
       Ok {| status_code := 200;
             content_csv := Ok {[ "Symbol" := ["SBIN"; "ITC"] ]} |} |}.

(** A backend that answers every ticker with the same info record and an
    empty history. *)
Definition yf_const (info : gmap string pyval) : yfinance unit :=
  {| ticker_info := fun _ w => (Ok info, w);
     ticker_history := fun _ w => (Ok [], w) |}.

Definition info_priced (price low high : Q) : gmap string pyval :=
  {[ "previousClose" := PyNum price;
     "fiftyTwoWeekLow" := PyNum low;
     "fiftyTwoWeekHigh" := PyNum high ]}.

(** A record with the 52-week range and no close. *)
Definition info_range_only : gmap string pyval :=
  {[ "fiftyTwoWeekLow" := PyNum 100; "fiftyTwoWeekHigh" := PyNum 200 ]}.

(** A backend whose [ticker.info] times out. *)
Definition yf_info_down : yfinance unit :=
  {| ticker_info := fun _ w => (Raise Timeout, w);
     ticker_history := fun _ w => (Ok [], w) |}.

(** A backend with no close in the info record and a history that times out. *)
Definition yf_history_down : yfinance unit :=
  {| ticker_info := fun _ w => (Ok info_range_only, w);
     ticker_history := fun _ w => (Raise Timeout, w) |}.

(** A record whose 52-week low is text. *)
Definition info_text_low : gmap string pyval :=
  {[ "previousClose" := PyNum 150;
     "fiftyTwoWeekLow" := PyStr "n/a";
     "fiftyTwoWeekHigh" := PyNum 200 ]}.

(** A backend that counts its calls: it has a price on every even call
    and none on every odd one. *)
Definition yf_flaky : yfinance nat :=
  {| ticker_info := fun _ calls =>
       (Ok (if Nat.even calls then info_priced 150 100 200 else info_range_only),
        S calls);
     ticker_history := fun _ calls => (Ok [], calls) |}.

(** Quote documents. *)
Definition quote_document (sym : StockApi.json) : StockApi.json :=
  StockApi.JObj
    [ ("info", StockApi.JObj [ ("symbol", sym);
                               ("companyName", StockApi.JStr "State Bank of India") ]);
      ("priceInfo", StockApi.JObj [ ("lastPrice", StockApi.JFloat (8125 # 10));
                                    ("change", StockApi.JFloat (5 # 2));
                                    ("pChange", StockApi.JFloat (31 # 100)) ]);
      ("securityWisePCR", StockApi.JObj [ ("high52Week", StockApi.JInt 900);
                                          ("low52Week", StockApi.JInt 600) ]);
      ("securityInfo", StockApi.JObj [ ("issuedCap", StockApi.JInt 1000) ]);
      ("metadata", StockApi.JObj [ ("industry", StockApi.JStr "Banks") ]) ].

(** A site that answers every request [200] with the given body. *)
Definition site_with (body : outcome StockApi.json) : StockApi.nse_site :=
  {| StockApi.session_get := fun _ =>
       Ok {| StockApi.status_code := 200; StockApi.json_body := body |} |}.

End Fixtures.

(** Further properties, and environments to run the rest of the code in. *)
Module MoreProps.
Import IndexApi.


(** [r] is a whole number of cents. *)
Definition whole_cents (r : Q) : Prop := exists cents : Z, (r == cents # 100)%Q.

(** A backend whose calls leave the world as it is: asked again, it
    answers the same. *)
Definition stable {W} (yf : yfinance W) : Prop :=
  forall ticker w,
    (ticker_info yf ticker w).2 = w /\ (ticker_history yf ticker w).2 = w.

(** The download of the constituent list went through: both requests were
    answered, the status is neither 4xx nor 5xx, the document parsed to
    [df] and its column [Symbol] holds [cells]. *)
Definition downloaded (nse : nse_archive) (df : dataframe) (cells : list string)
  : Prop :=
  exists response,
    landing_get nse = Ok tt /\
    nifty50list_get nse = Ok response /\
    ~ (400 <= status_code response < 600)%nat /\
    content_csv response = Ok df /\
    df !! "Symbol" = Some cells.


(** A corporate action is a dividend with an amount in whole cents, or a
    split with a text that starts with ["1:"]. *)
Definition well_formed_action (a : HistoricalApi.action) : Prop :=
  (HistoricalApi.action_type a = "Dividend" /\
   exists amount, HistoricalApi.action_value a = PyNum amount /\ whole_cents amount) \/
  (HistoricalApi.action_type a = "Split" /\
   exists text, HistoricalApi.action_value a = PyStr ("1:" +:+ text)).

End MoreProps.

Module MoreFixtures.
Import IndexApi Fixtures.

(** [str.upper] on ASCII text. *)
Definition ascii_upper_char (c : Ascii.ascii) : Ascii.ascii :=
  let n := Ascii.nat_of_ascii c in
  if (97 <=? n)%nat && (n <=? 122)%nat then Ascii.ascii_of_nat (n - 32) else c.

Fixpoint ascii_upper (s : string) : string :=
  match s with
  | EmptyString => EmptyString
  | String c rest => String (ascii_upper_char c) (ascii_upper rest)
  end.

(** [str] of a list of tickers made of letters and digits. *)
Definition str_of_tickers (l : list string) : string :=
  "[" +:+ String.concat ", " (map (fun s => "'" +:+ s +:+ "'") l) +:+ "]".

(** A validity check that knows no code, and one that cannot be reached. *)
Definition knows_nothing : string -> outcome bool := fun _ => Ok false.
Definition unreachable_check : string -> outcome bool := fun _ => Raise ConnectionError.

(** The archive answers [200] with a document that has no [Symbol] column. *)
Definition nse_other_columns : nse_archive :=
  {| landing_get := Ok tt;
     nifty50list_get :=
       Ok {| status_code := 200;
             content_csv := Ok {[ "Company Name" := ["State Bank of India"] ]} |} |}.

(** A backend that counts the calls of [ticker.history]. *)
Definition yf_counting (info : gmap string pyval) : yfinance nat :=
  {| ticker_info := fun _ asked => (Ok info, asked);
     ticker_history := fun _ asked => (Ok [(99 # 1)%Q], S asked) |}.

(** An explicit null previous close beside a regular-market close. *)
Definition info_null_close : gmap string pyval :=
  {[ "previousClose" := PyNone;
     "regularMarketPreviousClose" := PyNum 150;
     "fiftyTwoWeekLow" := PyNum 100;
     "fiftyTwoWeekHigh" := PyNum 200 ]}.

(** Two days of history, a dividend and a 2-for-1 split. *)
Definition two_days : list HistoricalApi.history_row :=
  [ {| HistoricalApi.row_date := {| HistoricalApi.year := 2024; HistoricalApi.month := 2;
                                    HistoricalApi.day := 8 |};
       HistoricalApi.row_Open := 100126 # 1000;
       HistoricalApi.row_High := 101 # 1;
       HistoricalApi.row_Low := 995 # 10;
       HistoricalApi.row_Close := 100555 # 1000;
       HistoricalApi.row_Volume := 12345 # 1 |};
    {| HistoricalApi.row_date := {| HistoricalApi.year := 2024; HistoricalApi.month := 2;
                                    HistoricalApi.day := 9 |};
       HistoricalApi.row_Open := 1005 # 10;
       HistoricalApi.row_High := 102 # 1;
       HistoricalApi.row_Low := 100 # 1;
       HistoricalApi.row_Close := 101 # 1;
       HistoricalApi.row_Volume := 23456 # 1 |} ].

Definition yf_history (rows : list HistoricalApi.history_row) : HistoricalApi.yfinance unit :=
  {| HistoricalApi.ticker_info := fun _ w => (Ok info_range_only, w);
     HistoricalApi.ticker_history := fun _ _ _ w => (Ok rows, w);
     HistoricalApi.ticker_dividends := fun _ w =>
       (Ok [({| HistoricalApi.year := 2023; HistoricalApi.month := 6;
                HistoricalApi.day := 1 |}, (113 # 10)%Q)], w);
     HistoricalApi.ticker_splits := fun _ w =>
       (Ok [({| HistoricalApi.year := 2014; HistoricalApi.month := 11;
                HistoricalApi.day := 20 |},
             {| HistoricalApi.ratio_num := 2; HistoricalApi.ratio_den := 1 |})], w) |}.

(** A backend whose [ticker.info] times out. *)
Definition yf_history_down : HistoricalApi.yfinance unit :=
  {| HistoricalApi.ticker_info := fun _ w => (Raise Timeout, w);
     HistoricalApi.ticker_history := fun _ _ _ w => (Ok [], w);
     HistoricalApi.ticker_dividends := fun _ w => (Ok [], w);
     HistoricalApi.ticker_splits := fun _ w => (Ok [], w) |}.

Definition ymd (y m d : Z) : HistoricalApi.date :=
  {| HistoricalApi.year := y; HistoricalApi.month := m; HistoricalApi.day := d |}.

End MoreFixtures.

(* ====================================================================== *)
(** ** Rounding                                                           *)
(* ====================================================================== *)

Section Rounding.
Local Open Scope Q_scope.

Lemma round_half_even_floor (q : Q) :
  (Qfloor q <= round_half_even q <= Qfloor q + 1)%Z.
Proof.
  unfold round_half_even.
  destruct (q - inject_Z (Qfloor q) ?= 1 # 2); [destruct (Z.even _)| |]; lia.
Qed.

Lemma round_half_even_ge (q : Q) (n : Z) :
  inject_Z n <= q -> (n <= round_half_even q)%Z.
Proof.
  intros H. apply Qfloor_resp_le in H. rewrite Qfloor_Z in H.
  pose proof (round_half_even_floor q). lia.
Qed.

Lemma round_half_even_le (q : Q) (n : Z) :
  q <= inject_Z n -> (round_half_even q <= n)%Z.
Proof.
  intros H.
  pose proof (Qfloor_resp_le _ _ H) as Hf. rewrite Qfloor_Z in Hf.
  destruct (Z.eq_dec (Qfloor q) n) as [Heq|Hne].
  - (* q is the integer n itself: the fraction is 0, below one half *)
    assert (Hq : q == inject_Z n).
    { apply Qle_antisym; [exact H|]. rewrite <- Heq. apply Qfloor_le. }
    unfold round_half_even. rewrite Heq.
    assert (Hlt : q - inject_Z n < 1 # 2).
    { rewrite Hq. unfold Qminus. rewrite Qplus_opp_r. reflexivity. }
    pose proof (proj1 (Qlt_alt _ _) Hlt) as Hc. rewrite Hc. lia.
  - pose proof (round_half_even_floor q). lia.
Qed.

Lemma round2_eq (q : Q) : round2 q == round_half_even (q * 100) # 100.
Proof. apply Qred_correct. Qed.

Lemma round2_nonneg (q : Q) : 0 <= q -> 0 <= round2 q.
Proof.
  intros H. rewrite round2_eq.
  assert (Hn : (0 <= round_half_even (q * 100))%Z).
  { apply round_half_even_ge. change (inject_Z 0) with 0.
    apply Qmult_le_0_compat; [exact H | discriminate]. }
  unfold Qle. simpl. lia.
Qed.

Lemma round2_le_100 (q : Q) : q <= 100 -> round2 q <= 100.
Proof.
  intros H. rewrite round2_eq.
  assert (Hn : (round_half_even (q * 100) <= 10000)%Z).
  { apply round_half_even_le. change (inject_Z 10000) with (100 * 100).
    apply Qmult_le_compat_r; [exact H | discriminate]. }
  unfold Qle. simpl. lia.
Qed.

Lemma Qis_zero_true (q : Q) : Qis_zero q = true <-> q == 0.
Proof.
  unfold Qis_zero, Qeq. simpl. rewrite Z.eqb_eq. lia.
Qed.

Lemma Qis_zero_false (q : Q) : Qis_zero q = false <-> ~ q == 0.
Proof.
  rewrite <- Qis_zero_true. destruct (Qis_zero q); split; congruence.
Qed.

Lemma Qle_bool_false (x y : Q) : Qle_bool x y = false <-> y < x.
Proof.
  rewrite <- Bool.not_true_iff_false, Qle_bool_iff. split.
  - apply Qnot_le_lt.
  - apply Qlt_not_le.
Qed.

End Rounding.

(* ====================================================================== *)
(** ** Rounding to the nearest float                                      *)
(* ====================================================================== *)

Section Binary64.
Local Open Scope Q_scope.

Lemma round_half_even_mono (x y : Q) :
  x <= y -> (round_half_even x <= round_half_even y)%Z.
Proof.
  intros Hxy.
  pose proof (Qfloor_resp_le _ _ Hxy) as Hfloor.
  destruct (Z.eq_dec (Qfloor x) (Qfloor y)) as [Heq | Hne].
  - unfold round_half_even. rewrite Heq.
    assert (Hfrac : x - inject_Z (Qfloor y) <= y - inject_Z (Qfloor y)) by lra.
    destruct (Qcompare_spec (x - inject_Z (Qfloor y)) (1 # 2)) as [Hx | Hx | Hx];
      destruct (Qcompare_spec (y - inject_Z (Qfloor y)) (1 # 2)) as [Hy | Hy | Hy];
      try destruct (Z.even (Qfloor y)); try lia; exfalso; lra.
  - pose proof (round_half_even_floor x). pose proof (round_half_even_floor y). lia.
Qed.

Lemma pow2_pos (e : Z) : 0 < pow2 e.
Proof. apply Qpower_0_lt. reflexivity. Qed.

Lemma pow2_plus (a b : Z) : pow2 (a + b) == pow2 a * pow2 b.
Proof. apply Qpower_plus. discriminate. Qed.

Lemma pow2_le (a b : Z) : (a <= b)%Z -> pow2 a <= pow2 b.
Proof. intros H. apply Qpower_le_compat_l; [exact H | discriminate]. Qed.

Lemma pow2_nat (e : Z) : (0 <= e)%Z -> pow2 e == inject_Z (2 ^ e).
Proof. intros H. unfold pow2. rewrite Zpower_Qpower by exact H. reflexivity. Qed.

Lemma pow2_div (a b : Z) : pow2 a / pow2 b == pow2 (a - b).
Proof. symmetry. apply Qpower_minus. discriminate. Qed.

Lemma binade_spec (q : Q) : 0 < q -> pow2 (binade q) <= q < pow2 (binade q + 1).
Proof.
  intros Hq. destruct q as [n d]. unfold binade. cbn [Qnum Qden].
  assert (Hn : (0 < n)%Z) by (unfold Qlt in Hq; cbn in Hq; lia).
  set (a := Z.log2 n). set (b := Z.log2 (Z.pos d)).
  assert (Ha : (2 ^ a <= n < 2 ^ (a + 1))%Z).
  { pose proof (Z.log2_spec n Hn). unfold a. rewrite <- Z.add_1_r in *. lia. }
  assert (Hb : (2 ^ b <= Z.pos d < 2 ^ (b + 1))%Z).
  { pose proof (Z.log2_spec (Z.pos d) ltac:(lia)). unfold b. rewrite <- Z.add_1_r in *. lia. }
  assert (Ha0 : (0 <= a)%Z) by apply Z.log2_nonneg.
  assert (Hb0 : (0 <= b)%Z) by apply Z.log2_nonneg.
  assert (Hfrac : forall u v : Z, (0 <= u)%Z -> (0 <= v)%Z ->
            pow2 (u - v) == 2 ^ u # Z.to_pos (2 ^ v)).
  { intros u v Hu Hv. rewrite <- pow2_div, !pow2_nat by lia.
    rewrite Qmake_Qdiv. rewrite Z2Pos.id by (apply Z.pow_pos_nonneg; lia).
    reflexivity. }
  assert (Hup : n # d < pow2 (a - b + 1)).
  { replace (a - b + 1)%Z with ((a + 1) - b)%Z by lia.
    rewrite Hfrac by lia. unfold Qlt. cbn [Qnum Qden].
    rewrite Z2Pos.id by (apply Z.pow_pos_nonneg; lia). nia. }
  assert (Hlo : pow2 (a - b - 1) <= n # d).
  { replace (a - b - 1)%Z with (a - (b + 1))%Z by lia.
    rewrite Hfrac by lia. unfold Qle. cbn [Qnum Qden].
    rewrite Z2Pos.id by (apply Z.pow_pos_nonneg; lia). nia. }
  destruct (Qle_bool (pow2 (a - b)) (n # d)) eqn:Htest.
  - split; [apply Qle_bool_iff; exact Htest | exact Hup].
  - split; [exact Hlo|].
    replace (a - b - 1 + 1)%Z with (a - b)%Z by lia.
    apply Qnot_le_lt. intros Hle. apply Qle_bool_iff in Hle. congruence.
Qed.

Lemma binade_mono (x y : Q) : 0 < x -> x <= y -> (binade x <= binade y)%Z.
Proof.
  intros Hx Hxy.
  destruct (binade_spec x Hx) as [Hlo _].
  destruct (binade_spec y ltac:(lra)) as [_ Hhi].
  destruct (Z_le_gt_dec (binade x) (binade y)) as [H | H]; [exact H|].
  exfalso. pose proof (pow2_le (binade y + 1) (binade x) ltac:(lia)). lra.
Qed.

Lemma round_positive_nonneg (q : Q) : 0 < q -> 0 <= round_positive q.
Proof.
  intros Hq. unfold round_positive.
  set (e := Z.max (binade q - 52) (-1074)).
  pose proof (pow2_pos e) as He.
  assert (Hm : (0 <= round_half_even (q / pow2 e))%Z).
  { apply round_half_even_ge. change (inject_Z 0) with 0.
    apply Qle_shift_div_l; [exact He | lra]. }
  apply Qmult_le_0_compat; [|lra].
  change 0 with (inject_Z 0). rewrite <- Zle_Qle. exact Hm.
Qed.

Lemma round_positive_mono (x y : Q) :
  0 < x -> x <= y -> round_positive x <= round_positive y.
Proof.
  intros Hx Hxy. assert (Hy : 0 < y) by lra.
  pose proof (binade_mono x y Hx Hxy) as Hk.
  destruct (binade_spec x Hx) as [_ Hxhi].
  destruct (binade_spec y Hy) as [Hylo _].
  unfold round_positive.
  set (ex := Z.max (binade x - 52) (-1074)).
  set (ey := Z.max (binade y - 52) (-1074)).
  pose proof (pow2_pos ex) as Hex. pose proof (pow2_pos ey) as Hey.
  destruct (Z.eq_dec ex ey) as [Heq | Hne].
  - rewrite <- Heq.
    apply Qmult_le_compat_r; [|lra].
    rewrite <- Zle_Qle. apply round_half_even_mono.
    apply Qle_shift_div_l; [exact Hex|].
    unfold Qdiv. rewrite <- Qmult_assoc, (Qmult_comm (/ _)), Qmult_inv_r by lra.
    lra.
  - assert (Hlt : (ex < ey)%Z) by lia.
    assert (Hey' : ey = (binade y - 52)%Z) by lia.
    assert (Hkx : (binade x + 1 <= binade y)%Z) by lia.
    (* both sides are compared with 2^(binade y) *)
    apply (Qle_trans _ (pow2 (binade y))).
    + assert (Hm : (round_half_even (x / pow2 ex) <= 2 ^ (binade y - ex))%Z).
      { apply round_half_even_le. rewrite <- pow2_nat by lia. rewrite <- pow2_div.
        apply Qle_shift_div_l; [exact Hex|].
        unfold Qdiv at 1. rewrite <- Qmult_assoc, (Qmult_comm (/ _)), Qmult_inv_r by lra.
        pose proof (pow2_le (binade x + 1) (binade y) Hkx). lra. }
      apply (Qle_trans _ (inject_Z (2 ^ (binade y - ex)) * pow2 ex)).
      * apply Qmult_le_compat_r; [|lra]. rewrite <- Zle_Qle. exact Hm.
      * rewrite <- pow2_nat by lia. rewrite <- pow2_plus.
        replace (binade y - ex + ex)%Z with (binade y) by lia. apply Qle_refl.
    + assert (Hm : (2 ^ 52 <= round_half_even (y / pow2 ey))%Z).
      { apply round_half_even_ge. rewrite <- pow2_nat by lia.
        replace 52%Z with (binade y - ey)%Z by lia. rewrite <- pow2_div.
        apply Qle_shift_div_l; [exact Hey|].
        unfold Qdiv at 1. rewrite <- Qmult_assoc, (Qmult_comm (/ _)), Qmult_inv_r by lra.
        lra. }
      apply (Qle_trans _ (inject_Z (2 ^ 52) * pow2 ey)).
      * rewrite <- pow2_nat by lia. rewrite <- pow2_plus.
        replace (52 + ey)%Z with (binade y) by lia. apply Qle_refl.
      * apply Qmult_le_compat_r; [|lra]. rewrite <- Zle_Qle. exact Hm.
Qed.

Lemma b64_zero : b64 0 = 0.
Proof. reflexivity. Qed.

Lemma b64_pos (q : Q) : 0 < q -> b64 q == round_positive q.
Proof.
  intros Hq. unfold b64. rewrite Qred_correct.
  rewrite (proj1 (Qgt_alt _ _) Hq). reflexivity.
Qed.

Lemma b64_neg (q : Q) : q < 0 -> b64 q == - round_positive (- q).
Proof.
  intros Hq. unfold b64. rewrite Qred_correct.
  rewrite (proj1 (Qlt_alt _ _) Hq). reflexivity.
Qed.

Lemma b64_null (q : Q) : q == 0 -> b64 q == 0.
Proof.
  intros Hq. unfold b64. rewrite Qred_correct.
  rewrite (proj1 (Qeq_alt _ _) Hq). reflexivity.
Qed.

Lemma b64_nonneg (q : Q) : 0 <= q -> 0 <= b64 q.
Proof.
  intros Hq. destruct (Qlt_le_dec 0 q) as [Hpos | Hle].
  - rewrite b64_pos by exact Hpos. apply round_positive_nonneg. exact Hpos.
  - rewrite b64_null by lra. apply Qle_refl.
Qed.

Lemma b64_nonpos (q : Q) : q <= 0 -> b64 q <= 0.
Proof.
  intros Hq. destruct (Qlt_le_dec q 0) as [Hneg | Hle].
  - rewrite b64_neg by exact Hneg.
    pose proof (round_positive_nonneg (- q) ltac:(lra)). lra.
  - rewrite b64_null by lra. apply Qle_refl.
Qed.

Lemma b64_mono (x y : Q) : x <= y -> b64 x <= b64 y.
Proof.
  intros Hxy.
  destruct (Qlt_le_dec 0 x) as [Hx | Hx].
  - rewrite (b64_pos x Hx), (b64_pos y) by lra.
    apply round_positive_mono; assumption.
  - destruct (Qlt_le_dec y 0) as [Hy | Hy].
    + rewrite (b64_neg y Hy), (b64_neg x) by lra.
      pose proof (round_positive_mono (- y) (- x) ltac:(lra) ltac:(lra)). lra.
    + apply (Qle_trans _ 0); [apply b64_nonpos | apply b64_nonneg]; assumption.
Qed.

Lemma b64_one : b64 1 = 1.
Proof. reflexivity. Qed.

Lemma b64_hundred : b64 100 = 100.
Proof. reflexivity. Qed.

Lemma float_sub_nonneg (x y : Q) : y <= x -> 0 <= float_sub x y.
Proof.
  intros H. apply b64_nonneg. pose proof (b64_mono y x H). lra.
Qed.

Lemma float_sub_mono (x x' y : Q) : x <= x' -> float_sub x y <= float_sub x' y.
Proof.
  intros H. apply b64_mono. pose proof (b64_mono x x' H). lra.
Qed.

Lemma Qdiv_nonneg (x y : Q) : 0 <= x -> 0 <= y -> 0 <= x / y.
Proof.
  intros Hx Hy. apply Qmult_le_0_compat; [exact Hx|]. apply Qinv_le_0_compat. exact Hy.
Qed.

Lemma Qdiv_le_1 (x y : Q) : 0 <= x -> x <= y -> x / y <= 1.
Proof.
  intros Hx Hxy. destruct (Qlt_le_dec 0 y) as [Hy | Hy].
  - apply Qle_shift_div_r; [exact Hy | lra].
  - assert (Hy0 : y == 0) by lra. rewrite Hy0. unfold Qdiv.
    change (/ 0) with 0. rewrite Qmult_0_r. discriminate.
Qed.

Lemma float_div_nonneg (x y : Q) : 0 <= x -> 0 <= y -> 0 <= float_div x y.
Proof.
  intros Hx Hy. apply b64_nonneg. apply Qdiv_nonneg; apply b64_nonneg; assumption.
Qed.

Lemma float_div_le_1 (x y : Q) : 0 <= x -> x <= y -> float_div x y <= 1.
Proof.
  intros Hx Hxy. unfold float_div.
  apply (Qle_trans _ (b64 1)); [|rewrite b64_one; apply Qle_refl].
  apply b64_mono.
  apply Qdiv_le_1; [apply b64_nonneg; exact Hx | apply b64_mono; exact Hxy].
Qed.

Lemma float_mul_100_nonneg (x : Q) : 0 <= x -> 0 <= float_mul x 100.
Proof.
  intros Hx. apply b64_nonneg. rewrite b64_hundred.
  pose proof (b64_nonneg x Hx). lra.
Qed.

Lemma float_mul_100_le (x : Q) : x <= 1 -> float_mul x 100 <= 100.
Proof.
  intros Hx. unfold float_mul.
  apply (Qle_trans _ (b64 100)); [|rewrite b64_hundred; apply Qle_refl].
  apply b64_mono.
  rewrite b64_hundred. pose proof (b64_mono x 1 Hx) as H. rewrite b64_one in H. lra.
Qed.

Lemma float_round2_nonneg (x : Q) : 0 <= x -> 0 <= float_round2 x.
Proof.
  intros Hx. apply b64_nonneg, round2_nonneg, b64_nonneg. exact Hx.
Qed.

Lemma float_round2_le_100 (x : Q) : x <= 100 -> float_round2 x <= 100.
Proof.
  intros Hx. unfold float_round2.
  apply (Qle_trans _ (b64 100)); [|rewrite b64_hundred; apply Qle_refl].
  apply b64_mono.
  apply round2_le_100. pose proof (b64_mono x 100 Hx) as H.
  rewrite b64_hundred in H. exact H.
Qed.

End Binary64.

(* ====================================================================== *)
(** ** The nearness calculation                                           *)
(* ====================================================================== *)

Section Nearness.
Import IndexApi Props.
Local Open Scope Q_scope.

(** On three numbers the block is a case analysis on zeros, on the order
    of price and low, and on the sign of the range. *)
Lemma low_nearness_numbers (p l h : Q) :
  low_nearness (PyNum p) (PyNum l) (PyNum h) =
  if Qis_zero p || Qis_zero l || Qis_zero h || negb (Qle_bool l p) then Ok PyNone
  else if Qle_bool (float_sub h l) 0 then Ok (PyNum 0)
  else Ok (PyNum (float_round2
                    (float_mul (float_div (float_sub p l) (float_sub h l)) 100))).
Proof.
  unfold low_nearness. cbn [truthy py_ge].
  destruct (Qis_zero p), (Qis_zero l), (Qis_zero h); cbn; try reflexivity.
  destruct (Qle_bool l p); cbn; [|reflexivity].
  destruct (Qle_bool (float_sub h l) 0) eqn:Hrange; cbn; [reflexivity|].
  assert (Hnz : Qis_zero (float_sub h l) = false).
  { apply Qis_zero_false. intros Hz. apply Qle_bool_false in Hrange.
    rewrite Hz in Hrange. discriminate. }
  rewrite Hnz. reflexivity.
Qed.




(** The arithmetic is that of floats: with price 100.01, low 100 and high
    108 the difference 100.01 - 100 is a little above 0.01, the percentage
    a little above 0.125, and the result 0.13 (on exact decimals it would
    be the tie 0.125, rounded to 0.12); and round(2.675, 2) is 2.67, the
    float 2.675 lying below the decimal. *)
Example low_nearness_on_floats :
  low_nearness (PyNum (10001 # 100)) (PyNum 100) (PyNum 108)
    = Ok (PyNum (b64 (13 # 100))) /\
  low_nearness (PyNum (b64 (10001 # 100))) (PyNum 100) (PyNum 108)
    = Ok (PyNum (b64 (13 # 100))) /\
  py_round2 (PyNum (2675 # 1000)) = Ok (PyNum (b64 (267 # 100))).
Proof. repeat split; vm_compute; reflexivity. Qed.

End Nearness.

(* ====================================================================== *)
(** ** The per-symbol fetch                                               *)
(* ====================================================================== *)

Section FetchOne.
Import IndexApi Props.
Local Open Scope Q_scope.
Context {W : Type}.
Variable float_of_str : string -> option Q.
Variable yf : yfinance W.

Lemma metrics_body_unfold (symbol : string) (w : W) :
  metrics_body float_of_str yf symbol w =
  match ticker_info yf (symbol +:+ NSE_SUFFIX) w with
  | (Raise e, w1) => (Raise e, w1)
  | (Ok info, w1) =>
      match last_price_of yf (symbol +:+ NSE_SUFFIX) info w1 with
      | (Raise e, w2) => (Raise e, w2)
      | (Ok price, w2) =>
          match low_nearness price (dict_get info "fiftyTwoWeekLow" PyNone)
                                   (dict_get info "fiftyTwoWeekHigh" PyNone) with
          | Raise e => (Raise e, w2)
          | Ok near =>
              match rounded_price_of float_of_str price with
              | Raise e => (Raise e, w2)
              | Ok rounded =>
                  (Ok {| symbol := symbol;
                         name := dict_get info "longName" (PyStr symbol);
                         lastPrice := rounded;
                         high52Week := dict_get info "fiftyTwoWeekHigh" PyNone;
                         low52Week := dict_get info "fiftyTwoWeekLow" PyNone;
                         lowNearnessPercentage := near;
                         upcomingEvents := [];
                         detailLink := NSE_DETAIL_URL symbol |}, w2)
              end
          end
      end
  end.
Proof.
  unfold metrics_body, rounded_price_of, mbind, io_bind, lift, mret, io_ret.
  destruct (ticker_info yf _ w) as [[info|e] w1]; [|reflexivity].
  destruct (last_price_of yf _ info w1) as [[price|e] w2]; [|reflexivity].
  destruct (low_nearness price _ _) as [near|e]; [|reflexivity].
  destruct (if truthy price then _ else _) as [rounded|e]; reflexivity.
Qed.

(** Every run ends in the [except] branch or is a normal run. *)
Lemma fetch_cases (symbol : string) (w : W) :
  (exists w', fetch_single_stock_metrics float_of_str yf symbol w
              = (error_snapshot symbol, w')) \/
  (exists s w', fetch_single_stock_metrics float_of_str yf symbol w = (s, w') /\
                normal_run float_of_str yf symbol w s w').
Proof.
  unfold fetch_single_stock_metrics, try_except.
  rewrite metrics_body_unfold.
  destruct (ticker_info yf _ w) as [[info|e] w1] eqn:Hinfo; [|eauto].
  destruct (last_price_of yf _ info w1) as [[price|e] w2] eqn:Hprice; [|eauto].
  destruct (low_nearness price _ _) as [near|e] eqn:Hnear; [|eauto].
  destruct (rounded_price_of float_of_str price) as [rounded|e] eqn:Hround; [|eauto].
  right. eexists _, _. split; [reflexivity|].
  econstructor; eassumption.
Qed.

(** An exception in the [try] block gives the snapshot of the [except]
    branch. *)
Lemma fetch_of_raise (symbol : string) (w : W) e w' :
  metrics_body float_of_str yf symbol w = (Raise e, w') ->
  fetch_single_stock_metrics float_of_str yf symbol w = (error_snapshot symbol, w').
Proof.
  unfold fetch_single_stock_metrics, try_except. intros ->. reflexivity.
Qed.

Lemma fetch_symbol (symbol : string) (w : W) :
  IndexApi.symbol (fetch_single_stock_metrics float_of_str yf symbol w).1 = symbol.
Proof.
  destruct (fetch_cases symbol w) as [[w' ->] | (s & w' & -> & Hrun)];
    [reflexivity|].
  destruct Hrun. reflexivity.
Qed.

Lemma rounded_price_None (price : pyval) :
  rounded_price_of float_of_str price = Ok PyNone -> truthy price = false.
Proof.
  unfold rounded_price_of. destruct (truthy price); [|reflexivity].
  destruct (py_float float_of_str price) as [[| |]|]; cbn; discriminate.
Qed.

Lemma low_nearness_falsy_price (price low high : pyval) :
  truthy price = false -> low_nearness price low high = Ok PyNone.
Proof. unfold low_nearness. intros ->. reflexivity. Qed.

(** A nearness that is a number comes from three numbers. *)
Lemma low_nearness_number_inv (price low high : pyval) (n : Q) :
  low_nearness price low high = Ok (PyNum n) ->
  exists p l h, price = PyNum p /\ low = PyNum l /\ high = PyNum h.
Proof.
  unfold low_nearness.
  destruct (truthy price && truthy low && truthy high); [|discriminate].
  destruct price as [|p|s], low as [|l|t]; cbn; try discriminate.
  - destruct (Qle_bool l p); cbn; [|discriminate].
    destruct high as [|h|u]; cbn; try discriminate.
    intros _. exists p, l, h. repeat split.
  - destruct (String.leb t s); cbn; [|discriminate].
    destruct high; discriminate.
Qed.

Lemma low_nearness_bounds (p l h n : Q) :
  low_nearness (PyNum p) (PyNum l) (PyNum h) = Ok (PyNum n) ->
  l <= p /\ 0 <= n /\ (p <= h -> n <= 100).
Proof.
  rewrite low_nearness_numbers.
  destruct (Qis_zero p || Qis_zero l || Qis_zero h) ; [discriminate|].
  cbn [orb]. destruct (Qle_bool l p) eqn:Hlp; [|discriminate]. cbn [negb].
  apply Qle_bool_iff in Hlp.
  destruct (Qle_bool (float_sub h l) 0) eqn:Hrange; intros [= <-].
  - split; [exact Hlp|]. split; [apply Qle_refl | discriminate].
  - apply Qle_bool_false in Hrange.
    pose proof (float_sub_nonneg p l Hlp) as Habove.
    split; [exact Hlp|]. split.
    + apply float_round2_nonneg, float_mul_100_nonneg, float_div_nonneg;
        [exact Habove | apply Qlt_le_weak; exact Hrange].
    + intros Hph.
      apply float_round2_le_100, float_mul_100_le, float_div_le_1;
        [exact Habove | apply float_sub_mono; exact Hph].
Qed.

End FetchOne.

(* ====================================================================== *)
(** ** Claims on the per-symbol fetch                                     *)
(* ====================================================================== *)

Section FetchClaims.
Import IndexApi Props.
Local Open Scope Q_scope.

(** C3: the per-symbol fetch never raises.  For every symbol and every
    backend fault (an exception in the info lookup, in the history lookup
    or in the nearness computation) it returns the snapshot named
    "Error/No Data for {symbol}" whose lastPrice, high52Week, low52Week and
    lowNearnessPercentage are null, whose upcomingEvents is empty and whose
    detailLink is the quote-page URL of the symbol. *)
Theorem fetch_survives_backend_fault {W : Type}
    (float_of_str : string -> option Q) (yf : yfinance W) (symbol : string) (w : W) :
  backend_fault yf symbol w ->
  (fetch_single_stock_metrics float_of_str yf symbol w).1 =
  {| symbol := symbol;
     name := PyStr ("Error/No Data for " +:+ symbol);
     lastPrice := PyNone;
     high52Week := PyNone;
     low52Week := PyNone;
     lowNearnessPercentage := PyNone;
     upcomingEvents := [];
     detailLink := "https://www.nseindia.com/get-quotes/equity?symbol=" +:+ symbol |}.
Proof.
  intros Hfault.
  assert (Hraise : exists e w', metrics_body float_of_str yf symbol w = (Raise e, w')).
  { rewrite metrics_body_unfold.
    destruct Hfault as [e w1 Hinfo | info w1 e w2 Hinfo Hclose Hhist
                       | info w1 price w2 e Hinfo Hprice Hnear].
    - rewrite Hinfo. eauto.
    - rewrite Hinfo. unfold last_price_of. rewrite Hclose. cbn [is_None].
      unfold mbind, io_bind. rewrite Hhist. eauto.
    - rewrite Hinfo, Hprice, Hnear. eauto. }
  destruct Hraise as (e & w' & Hraise).
  rewrite (fetch_of_raise _ _ _ _ _ _ Hraise). reflexivity.
Qed.

(** C5, as the code has it: whenever lowNearnessPercentage is non-null it
    is at least 0; it was computed from a numeric price p found by the
    backend and from the numeric low52Week l and high52Week h of the
    snapshot, with p >= l; and it is at most 100 whenever p <= h. *)
Theorem nearness_within_bounds {W : Type}
    (float_of_str : string -> option Q) (yf : yfinance W) (symbol : string) (w : W)
    (n : Q) :
  lowNearnessPercentage (fetch_single_stock_metrics float_of_str yf symbol w).1
    = PyNum n ->
  0 <= n /\
  exists info w1 p w2 l h,
    ticker_info yf (symbol +:+ ".NS") w = (Ok info, w1) /\
    last_price_of yf (symbol +:+ ".NS") info w1 = (Ok (PyNum p), w2) /\
    low52Week (fetch_single_stock_metrics float_of_str yf symbol w).1 = PyNum l /\
    high52Week (fetch_single_stock_metrics float_of_str yf symbol w).1 = PyNum h /\
    low_nearness (PyNum p) (PyNum l) (PyNum h) = Ok (PyNum n) /\
    l <= p /\
    (p <= h -> n <= 100).
Proof.
  destruct (fetch_cases float_of_str yf symbol w) as [[w' ->] | (s & w' & -> & Hrun)];
    [discriminate|].
  destruct Hrun as [info w1 price w2 near rounded Hinfo Hprice Hnear Hround].
  cbn. intros ->.
  destruct (low_nearness_number_inv _ _ _ _ Hnear) as (p & l & h & -> & Hl & Hh).
  rewrite Hl, Hh in Hnear |- *.
  destruct (low_nearness_bounds _ _ _ _ Hnear) as (Hlp & Hn & Hup).
  split; [exact Hn|]. exists info, w1, p, w2, l, h.
  repeat split; assumption.
Qed.

(** C6, as the code has it: if lastPrice is null then
    lowNearnessPercentage is null; high52Week and low52Week are null on the
    error path and are otherwise whatever the info record holds, priced or
    not. *)
Theorem no_price_no_nearness {W : Type}
    (float_of_str : string -> option Q) (yf : yfinance W) (symbol : string) (w : W) :
  lastPrice (fetch_single_stock_metrics float_of_str yf symbol w).1 = PyNone ->
  lowNearnessPercentage (fetch_single_stock_metrics float_of_str yf symbol w).1
    = PyNone /\
  ((fetch_single_stock_metrics float_of_str yf symbol w).1 = error_snapshot symbol \/
   exists info w1,
     ticker_info yf (symbol +:+ NSE_SUFFIX) w = (Ok info, w1) /\
     high52Week (fetch_single_stock_metrics float_of_str yf symbol w).1
       = dict_get info "fiftyTwoWeekHigh" PyNone /\
     low52Week (fetch_single_stock_metrics float_of_str yf symbol w).1
       = dict_get info "fiftyTwoWeekLow" PyNone).
Proof.
  destruct (fetch_cases float_of_str yf symbol w) as [[w' ->] | (s & w' & -> & Hrun)].
  - intros _. split; [reflexivity | left; reflexivity].
  - destruct Hrun as [info w1 price w2 near rounded Hinfo Hprice Hnear Hround].
    cbn. intros ->.
    apply rounded_price_None in Hround.
    rewrite (low_nearness_falsy_price _ _ _ Hround) in Hnear.
    split; [congruence|]. right. eauto.
Qed.

(** C10: zero is treated as missing data.  With an info record at hand, a
    previous close equal to 0 gives a null lastPrice; and when price, low
    and high are all present and one of them equals 0, the
    lowNearnessPercentage is null. *)
Theorem zero_counts_as_missing {W : Type}
    (float_of_str : string -> option Q) (yf : yfinance W) (symbol : string) (w : W)
    (info : gmap string pyval) (w1 : W) :
  ticker_info yf (symbol +:+ NSE_SUFFIX) w = (Ok info, w1) ->
  (forall q,
     dict_get info "previousClose" (dict_get info "regularMarketPreviousClose" PyNone)
       = PyNum q ->
     q == 0 ->
     lastPrice (fetch_single_stock_metrics float_of_str yf symbol w).1 = PyNone) /\
  (forall p w2 l h,
     last_price_of yf (symbol +:+ NSE_SUFFIX) info w1 = (Ok (PyNum p), w2) ->
     dict_get info "fiftyTwoWeekLow" PyNone = PyNum l ->
     dict_get info "fiftyTwoWeekHigh" PyNone = PyNum h ->
     p == 0 \/ l == 0 \/ h == 0 ->
     lowNearnessPercentage (fetch_single_stock_metrics float_of_str yf symbol w).1
       = PyNone).
Proof.
  intros Hinfo. split.
  - intros q Hclose Hq.
    apply Qis_zero_true in Hq.
    unfold fetch_single_stock_metrics, try_except.
    rewrite metrics_body_unfold, Hinfo.
    unfold last_price_of. rewrite Hclose. cbn [is_None mret io_ret].
    rewrite low_nearness_falsy_price by (cbn; rewrite Hq; reflexivity).
    unfold rounded_price_of. cbn [truthy]. rewrite Hq. reflexivity.
  - intros p w2 l h Hprice Hl Hh Hzero.
    unfold fetch_single_stock_metrics, try_except.
    rewrite metrics_body_unfold, Hinfo, Hprice, Hl, Hh, low_nearness_numbers.
    assert (Hz : Qis_zero p || Qis_zero l || Qis_zero h = true).
    { destruct Hzero as [H | [H | H]]; apply Qis_zero_true in H; rewrite H;
        rewrite ?Bool.orb_true_r; reflexivity. }
    rewrite Hz. cbn [orb].
    destruct (rounded_price_of float_of_str (PyNum p)); reflexivity.
Qed.

End FetchClaims.

Section FetchRuns.
Import IndexApi Props Fixtures.
Local Open Scope Q_scope.

(** The three kinds of fault, each on a backend that shows it. *)
Lemma fetch_survives_backend_fault_witness :
  (fetch_single_stock_metrics no_float yf_info_down "SBIN" tt).1
    = error_snapshot "SBIN" /\
  (fetch_single_stock_metrics no_float yf_history_down "SBIN" tt).1
    = error_snapshot "SBIN" /\
  (fetch_single_stock_metrics no_float (yf_const info_text_low) "SBIN" tt).1
    = error_snapshot "SBIN".
Proof.
  split; [|split].
  - apply (fetch_survives_backend_fault no_float yf_info_down "SBIN" tt).
    apply (info_fault _ _ _ Timeout tt). reflexivity.
  - apply (fetch_survives_backend_fault no_float yf_history_down "SBIN" tt).
    apply (history_fault _ _ _ info_range_only tt Timeout tt); reflexivity.
  - apply (fetch_survives_backend_fault no_float (yf_const info_text_low) "SBIN" tt).
    apply (nearness_fault _ _ _ info_text_low tt (PyNum 150) tt TypeError);
      reflexivity.
Defined.

(** A price of 150 in a range from 100 to 200. *)
Lemma nearness_within_bounds_witness :
  lowNearnessPercentage
    (fetch_single_stock_metrics no_float (yf_const (info_priced 150 100 200)) "SBIN" tt).1
    = PyNum 50 /\
  0 <= 50.
Proof.
  split; [reflexivity|].
  apply (nearness_within_bounds no_float (yf_const (info_priced 150 100 200))
           "SBIN" tt 50).
  reflexivity.
Defined.

(** C5, as stated, fails for a price above the 52-week high: with price
    250, low 100 and high 200 the snapshot has lowNearnessPercentage
    150.0. *)
Lemma nearness_above_100_counterexample :
  lowNearnessPercentage
    (fetch_single_stock_metrics no_float (yf_const (info_priced 250 100 200)) "SBIN" tt).1
    = PyNum 150 /\
  ~ (150 <= 100).
Proof. split; [reflexivity | unfold Qle; simpl; lia]. Qed.

(** A record with a 52-week range, no close, and an empty history. *)
Lemma no_price_no_nearness_witness :
  lastPrice (fetch_single_stock_metrics no_float (yf_const info_range_only) "SBIN" tt).1
    = PyNone /\
  lowNearnessPercentage
    (fetch_single_stock_metrics no_float (yf_const info_range_only) "SBIN" tt).1
    = PyNone.
Proof.
  split; [reflexivity|].
  apply (no_price_no_nearness no_float (yf_const info_range_only) "SBIN" tt).
  reflexivity.
Defined.

(** C6, as stated, fails for high52Week and low52Week: with a 52-week
    range of 100 to 200 in the info record, no close and an empty history,
    the snapshot has a null lastPrice and still carries 200 and 100. *)
Lemma range_without_price_counterexample :
  lastPrice (fetch_single_stock_metrics no_float (yf_const info_range_only) "SBIN" tt).1
    = PyNone /\
  high52Week (fetch_single_stock_metrics no_float (yf_const info_range_only) "SBIN" tt).1
    = PyNum 200 /\
  low52Week (fetch_single_stock_metrics no_float (yf_const info_range_only) "SBIN" tt).1
    = PyNum 100.
Proof. repeat split; reflexivity. Qed.

(** A previous close of 0 in a range from 100 to 200; and a price of 150
    with a 52-week low of 0. *)
Lemma zero_counts_as_missing_witness :
  lastPrice
    (fetch_single_stock_metrics no_float (yf_const (info_priced 0 100 200)) "SBIN" tt).1
    = PyNone /\
  lowNearnessPercentage
    (fetch_single_stock_metrics no_float (yf_const (info_priced 150 0 200)) "SBIN" tt).1
    = PyNone.
Proof.
  split.
  - apply (zero_counts_as_missing no_float (yf_const (info_priced 0 100 200))
             "SBIN" tt (info_priced 0 100 200) tt eq_refl)
      with (q := 0); reflexivity.
  - apply (zero_counts_as_missing no_float (yf_const (info_priced 150 0 200))
             "SBIN" tt (info_priced 150 0 200) tt eq_refl)
      with (p := 150) (w2 := tt) (l := 0) (h := 200);
      [reflexivity | reflexivity | reflexivity | right; left; reflexivity].
Defined.

End FetchRuns.

(* ====================================================================== *)
(** ** The constituent lists                                              *)
(* ====================================================================== *)

Section Resolver.
Import IndexApi Props Fixtures.

(** Whatever is raised in the [try] block, one of the three handlers
    keeps the fallback list. *)
Lemma get_nifty_50_symbols_of_raise (nse : nse_archive) e :
  nifty_download nse = Raise e -> get_nifty_50_symbols nse = NIFTY_FALLBACK.
Proof.
  unfold get_nifty_50_symbols. intros ->.
  destruct (is_RequestException e); [reflexivity|]. destruct e; reflexivity.
Qed.

Lemma get_nifty_50_symbols_of_ok (nse : nse_archive) cells :
  nifty_download nse = Ok cells -> get_nifty_50_symbols nse = cells.
Proof. unfold get_nifty_50_symbols. intros ->. reflexivity. Qed.

Lemma raise_for_status_raises (response : http_response) :
  (400 <= status_code response < 600)%nat ->
  raise_for_status response = Raise HTTPError.
Proof.
  intros [Hlo Hhi]. unfold raise_for_status.
  apply Nat.leb_le in Hlo. apply Nat.ltb_lt in Hhi. rewrite Hlo, Hhi. reflexivity.
Qed.

(** The failure modes are exactly the runs of the [try] block that raise. *)
Lemma remote_failure_iff_raises (nse : nse_archive) :
  remote_failure nse <-> raises (nifty_download nse).
Proof.
  unfold raises, nifty_download, symbol_column, mbind, outcome_bind. split.
  - intros [e H | e H | response H Hstatus | response e H Hcsv
           | response df H Hcsv Hcol].
    + rewrite H. eauto.
    + rewrite H. destruct (landing_get nse); eauto.
    + rewrite H, (raise_for_status_raises _ Hstatus).
      destruct (landing_get nse); eauto.
    + rewrite H, Hcsv.
      destruct (landing_get nse), (raise_for_status response); eauto.
    + rewrite H, Hcsv, Hcol.
      destruct (landing_get nse), (raise_for_status response); eauto.
  - intros [e H].
    destruct (landing_get nse) as [[]|e0] eqn:Hlanding;
      [|eapply landing_unreachable; eassumption].
    destruct (nifty50list_get nse) as [response|e1] eqn:Hlist;
      [|eapply list_unreachable; eassumption].
    destruct (raise_for_status response) as [[]|e2] eqn:Hstatus.
    + destruct (content_csv response) as [df|e3] eqn:Hcsv;
        [|eapply malformed_csv; eassumption].
      destruct (df !! "Symbol") as [cells|] eqn:Hcol; [discriminate|].
      eapply missing_symbol_column; eassumption.
    + eapply http_error_status; [eassumption|].
      unfold raise_for_status in Hstatus.
      destruct (400 <=? status_code response)%nat eqn:Hlo; [|discriminate].
      destruct (status_code response <? 600)%nat eqn:Hhi; [|discriminate].
      apply Nat.leb_le in Hlo. apply Nat.ltb_lt in Hhi. lia.
Qed.

(** C2, as the code has it: the resolver never fails.  In every failure
    mode of the remote source (an exception of either request such as a
    time-out or a connection error, a 4xx or 5xx status, a document that
    does not decode or parse, a missing 'Symbol' column, any other
    exception) it returns the hardcoded fallback list of 7 symbols, which
    is not empty, and nothing propagates. *)
Theorem resolver_falls_back (nse : nse_archive) :
  remote_failure nse ->
  get_nifty_50_symbols nse
    = ["RELIANCE"; "HDFCBANK"; "TCS"; "ICICIBANK"; "INFY"; "KOTAKBANK"; "HINDUNILVR"] /\
  get_nifty_50_symbols nse <> [].
Proof.
  intros Hfail. apply remote_failure_iff_raises in Hfail. destruct Hfail as [e He].
  rewrite (get_nifty_50_symbols_of_raise _ _ He). split; [reflexivity | discriminate].
Qed.

(** A time-out of the first request. *)
Lemma resolver_falls_back_witness :
  get_nifty_50_symbols nse_timeout = NIFTY_FALLBACK /\
  get_nifty_50_symbols nse_timeout <> [].
Proof.
  apply (resolver_falls_back nse_timeout).
  apply (landing_unreachable nse_timeout Timeout). reflexivity.
Defined.

(** C2, as stated, fails twice.  A document with the header [Symbol] and
    no row downloads and parses, and the resolver returns the empty list.
    A status outside 2xx that is neither 4xx nor 5xx raises nothing: with
    status 304 and a one-row document the resolver returns that row, not
    the fallback list. *)
Lemma resolver_counterexample :
  get_nifty_50_symbols nse_header_only = [] /\
  (get_nifty_50_symbols nse_not_modified = ["SBIN"] /\
   get_nifty_50_symbols nse_not_modified <> NIFTY_FALLBACK).
Proof. split; [reflexivity|]. split; [reflexivity | discriminate]. Qed.

(** C8 fails on the code: the SENSEX list names TATASTEEL twice, at
    positions 18 and 24 (from 0) of its 30 entries, so its symbols are not
    pairwise distinct; the 7 symbols of the NIFTY fallback list are. *)
Theorem sensex_list_repeats_a_symbol :
  NoDup NIFTY_FALLBACK /\
  length get_sensex_30_symbols = 30%nat /\
  get_sensex_30_symbols !! 18%nat = Some "TATASTEEL" /\
  get_sensex_30_symbols !! 24%nat = Some "TATASTEEL" /\
  ~ NoDup get_sensex_30_symbols.
Proof.
  split; [|split; [|split; [|split]]]; try reflexivity.
  - apply (bool_decide_unpack _). vm_compute. exact I.
  - intros Hnodup. apply (bool_decide_pack _) in Hnodup.
    vm_compute in Hnodup. exact Hnodup.
Qed.

End Resolver.

(* ====================================================================== *)
(** ** The aggregate reports                                              *)
(* ====================================================================== *)

Section Reports.
Import IndexApi Props Fixtures.
Context {W : Type}.
Variable float_of_str : string -> option Q.
Variable yf : yfinance W.

(** The loop keeps, in order, the priced ones among one snapshot per
    symbol. *)
Lemma fetch_loop_filter (symbols : list string) (results : list snapshot) (w : W) :
  fetch_loop float_of_str yf symbols results w =
  (results ++ List.filter has_price (fetch_each float_of_str yf symbols w).1,
   (fetch_each float_of_str yf symbols w).2).
Proof.
  revert results w. induction symbols as [|symbol rest IH]; intros results w.
  - cbn. rewrite app_nil_r. reflexivity.
  - cbn [fetch_loop fetch_each].
    destruct (fetch_single_stock_metrics float_of_str yf symbol w) as [s w1].
    rewrite IH.
    destruct (fetch_each float_of_str yf rest w1) as [others w2].
    cbn [fst snd List.filter]. unfold has_price at 2.
    destruct (negb (is_None (lastPrice s))); [|reflexivity].
    rewrite <- app_assoc. reflexivity.
Qed.

Lemma fetch_each_symbols (symbols : list string) (w : W) :
  map symbol (fetch_each float_of_str yf symbols w).1 = symbols.
Proof.
  revert w. induction symbols as [|s rest IH]; intros w; [reflexivity|].
  cbn [fetch_each].
  pose proof (fetch_symbol float_of_str yf s w) as Hs.
  destruct (fetch_single_stock_metrics float_of_str yf s w) as [snap w1].
  specialize (IH w1).
  destruct (fetch_each float_of_str yf rest w1) as [others w2].
  cbn in *. congruence.
Qed.

Lemma filter_has_price (snaps : list snapshot) :
  Forall (fun s => lastPrice s <> PyNone) (List.filter has_price snaps).
Proof.
  apply Forall_forall. intros s Hin.
  apply list_elem_of_In, filter_In in Hin. destruct Hin as [_ Hp].
  unfold has_price in Hp. destruct (lastPrice s); [discriminate| |]; discriminate.
Qed.

Lemma filter_length_le (snaps : list snapshot) :
  length (List.filter has_price snaps) <= length snaps.
Proof.
  induction snaps as [|s rest IH]; cbn; [lia|].
  destruct (has_price s); cbn; lia.
Qed.

(** A report with both counts, filled from the loop, keeps the invariant. *)
Lemma loop_report_invariant (symbols : list string) (w : W) (r : report) :
  total_constituents r = Some (length symbols) ->
  total_stocks_fetched r
    = Some (length (fetch_loop float_of_str yf symbols [] w).1) ->
  data r = (fetch_loop float_of_str yf symbols [] w).1 ->
  report_invariant symbols r.
Proof.
  intros Htotal Hfetched Hdata.
  rewrite fetch_loop_filter in Hfetched, Hdata. cbn in Hfetched, Hdata.
  pose proof (fetch_each_symbols symbols w) as Hsym.
  set (snaps := (fetch_each float_of_str yf symbols w).1) in *.
  assert (Hlen : length snaps = length symbols).
  { rewrite <- Hsym. symmetry. apply length_map. }
  split; [exact Htotal|]. split; [|split].
  - eexists. split; [exact Hfetched|].
    pose proof (filter_length_le snaps). lia.
  - rewrite Hdata. apply filter_has_price.
  - exists snaps. split; assumption.
Qed.

Lemma app_get_nifty50_data_run (nse : nse_archive) (w : W) :
  (IndexApi.get_nifty50_data float_of_str yf nse w).1 =
  {| status := "success"; message := None; index := Some "NIFTY50";
     total_constituents := Some (length (get_nifty_50_symbols nse));
     total_stocks_fetched :=
       Some (length (fetch_loop float_of_str yf (get_nifty_50_symbols nse) [] w).1);
     data := (fetch_loop float_of_str yf (get_nifty_50_symbols nse) [] w).1 |}.
Proof.
  unfold IndexApi.get_nifty50_data.
  destruct (fetch_loop float_of_str yf (get_nifty_50_symbols nse) [] w). reflexivity.
Qed.

Lemma app_get_sensex_data_run (w : W) :
  (IndexApi.get_sensex_data float_of_str yf w).1 =
  {| status := "success"; message := None; index := Some "SENSEX";
     total_constituents := Some (length get_sensex_30_symbols);
     total_stocks_fetched :=
       Some (length (fetch_loop float_of_str yf get_sensex_30_symbols [] w).1);
     data := (fetch_loop float_of_str yf get_sensex_30_symbols [] w).1 |}.
Proof.
  unfold IndexApi.get_sensex_data.
  destruct (fetch_loop float_of_str yf get_sensex_30_symbols [] w). reflexivity.
Qed.

Lemma legacy_get_sensex_data_run (w : W) :
  (LegacyIndexApi.get_sensex_data float_of_str yf w).1 =
  (IndexApi.get_sensex_data float_of_str yf w).1.
Proof.
  unfold LegacyIndexApi.get_sensex_data, IndexApi.get_sensex_data,
    LegacyIndexApi.get_sensex_30_symbols.
  reflexivity.
Qed.

Lemma legacy_get_nifty50_data_success (nse : nse_archive) (w : W) :
  legacy_warns (get_nifty_50_symbols nse) = false ->
  (LegacyIndexApi.get_nifty50_data float_of_str yf nse w).1 =
  (IndexApi.get_nifty50_data float_of_str yf nse w).1.
Proof.
  unfold legacy_warns, LegacyIndexApi.get_nifty50_data, IndexApi.get_nifty50_data,
    LegacyIndexApi.get_nifty_50_symbols.
  intros ->. reflexivity.
Qed.

Lemma legacy_get_nifty50_data_warning (nse : nse_archive) (w : W) :
  legacy_warns (get_nifty_50_symbols nse) = true ->
  (LegacyIndexApi.get_nifty50_data float_of_str yf nse w).1 =
  {| status := "warning";
     message := Some "NSE data download failed. Using a small, cached list for demonstration/fallback.";
     index := None;
     total_constituents := None;
     total_stocks_fetched := None;
     data := (LegacyIndexApi.fetch_twice float_of_str yf (get_nifty_50_symbols nse) w).1 |}.
Proof.
  unfold legacy_warns, LegacyIndexApi.get_nifty50_data,
    LegacyIndexApi.get_nifty_50_symbols.
  intros ->.
  destruct (LegacyIndexApi.fetch_twice float_of_str yf (get_nifty_50_symbols nse) w).
  reflexivity.
Qed.

End Reports.

Section ReportClaims.
Import IndexApi Props Fixtures.

(** C4, as the code has it.  Every report of the NIFTY 50 and SENSEX
    endpoints of [app/api/index_api.py], every report of the older SENSEX
    endpoint, and every report of the older NIFTY 50 endpoint built from a
    list that is neither empty nor the fallback list, has
    0 <= total_stocks_fetched <= total_constituents, has total_constituents
    equal to the length of the resolved list, holds only items with a
    non-null lastPrice, and holds them in the order of the list.  The
    report that the older NIFTY 50 endpoint builds from an empty list or
    from the fallback list has neither count. *)
Theorem reports_keep_counts_and_order {W : Type}
    (float_of_str : string -> option Q) (yf : yfinance W) (nse : nse_archive) (w : W) :
  report_invariant (get_nifty_50_symbols nse)
    (IndexApi.get_nifty50_data float_of_str yf nse w).1 /\
  report_invariant get_sensex_30_symbols
    (IndexApi.get_sensex_data float_of_str yf w).1 /\
  report_invariant get_sensex_30_symbols
    (LegacyIndexApi.get_sensex_data float_of_str yf w).1 /\
  (legacy_warns (get_nifty_50_symbols nse) = false ->
   report_invariant (get_nifty_50_symbols nse)
     (LegacyIndexApi.get_nifty50_data float_of_str yf nse w).1) /\
  (legacy_warns (get_nifty_50_symbols nse) = true ->
   total_constituents (LegacyIndexApi.get_nifty50_data float_of_str yf nse w).1 = None /\
   total_stocks_fetched (LegacyIndexApi.get_nifty50_data float_of_str yf nse w).1 = None).
Proof.
  assert (Hnifty : report_invariant (get_nifty_50_symbols nse)
                     (IndexApi.get_nifty50_data float_of_str yf nse w).1).
  { rewrite app_get_nifty50_data_run.
    apply (loop_report_invariant float_of_str yf _ w); reflexivity. }
  assert (Hsensex : report_invariant get_sensex_30_symbols
                      (IndexApi.get_sensex_data float_of_str yf w).1).
  { rewrite app_get_sensex_data_run.
    apply (loop_report_invariant float_of_str yf _ w); reflexivity. }
  split; [exact Hnifty|]. split; [exact Hsensex|]. split; [|split].
  - rewrite legacy_get_sensex_data_run. exact Hsensex.
  - intros Hquiet. rewrite (legacy_get_nifty50_data_success _ _ _ _ Hquiet).
    exact Hnifty.
  - intros Hwarn. rewrite (legacy_get_nifty50_data_warning _ _ _ _ Hwarn).
    split; reflexivity.
Qed.

(** The older NIFTY 50 endpoint on a downloaded list of two symbols. *)
Lemma reports_keep_counts_and_order_witness :
  report_invariant (get_nifty_50_symbols nse_two_rows)
    (LegacyIndexApi.get_nifty50_data no_float (yf_const (info_priced 150 100 200))
       nse_two_rows tt).1.
Proof.
  destruct (reports_keep_counts_and_order no_float (yf_const (info_priced 150 100 200))
              nse_two_rows tt) as (_ & _ & _ & Hlegacy & _).
  apply Hlegacy. reflexivity.
Defined.

(** C4, as stated, fails on the older NIFTY 50 endpoint when the resolver
    falls back: the report has no total_constituents (the list has 7
    symbols) and no total_stocks_fetched; and since that branch fetches
    every symbol a second time for the item it keeps, a backend that has a
    price on the first call and none on the second puts items with a null
    lastPrice in the report. *)
Lemma legacy_fallback_report_counterexample :
  length (get_nifty_50_symbols nse_timeout) = 7%nat /\
  total_constituents
    (LegacyIndexApi.get_nifty50_data no_float (yf_const (info_priced 150 100 200))
       nse_timeout tt).1 = None /\
  total_stocks_fetched
    (LegacyIndexApi.get_nifty50_data no_float (yf_const (info_priced 150 100 200))
       nse_timeout tt).1 = None /\
  map lastPrice (data (LegacyIndexApi.get_nifty50_data no_float yf_flaky nse_timeout 0%nat).1)
    = [PyNone; PyNone; PyNone; PyNone; PyNone; PyNone; PyNone].
Proof. repeat split; vm_compute; reflexivity. Qed.

(** C7, as the code has it.  Both endpoints of [app/api/index_api.py] and
    the older SENSEX endpoint always report status "success", whichever
    source the list came from.  The older NIFTY 50 endpoint reports
    "warning" exactly when the resolved list is empty or equal to the
    fallback list, hence whenever the remote source failed, and "success"
    otherwise.  The source itself is not reported: the report of either
    NIFTY 50 endpoint is determined by the resolved list alone, so two
    answers of the remote source that resolve to the same list give the
    same report; the reports of [app/api/index_api.py] and of the older
    SENSEX endpoint carry no message, and the older NIFTY 50 endpoint
    carries one fixed message exactly when its status is "warning". *)
Theorem report_status {W : Type}
    (float_of_str : string -> option Q) (yf : yfinance W) (nse : nse_archive) (w : W) :
  status (IndexApi.get_nifty50_data float_of_str yf nse w).1 = "success" /\
  status (IndexApi.get_sensex_data float_of_str yf w).1 = "success" /\
  status (LegacyIndexApi.get_sensex_data float_of_str yf w).1 = "success" /\
  status (LegacyIndexApi.get_nifty50_data float_of_str yf nse w).1
    = (if legacy_warns (get_nifty_50_symbols nse) then "warning" else "success") /\
  (remote_failure nse ->
   status (LegacyIndexApi.get_nifty50_data float_of_str yf nse w).1 = "warning") /\
  (forall nse',
     get_nifty_50_symbols nse' = get_nifty_50_symbols nse ->
     IndexApi.get_nifty50_data float_of_str yf nse' w
     = IndexApi.get_nifty50_data float_of_str yf nse w /\
     LegacyIndexApi.get_nifty50_data float_of_str yf nse' w
     = LegacyIndexApi.get_nifty50_data float_of_str yf nse w) /\
  message (IndexApi.get_nifty50_data float_of_str yf nse w).1 = None /\
  message (IndexApi.get_sensex_data float_of_str yf w).1 = None /\
  message (LegacyIndexApi.get_sensex_data float_of_str yf w).1 = None /\
  message (LegacyIndexApi.get_nifty50_data float_of_str yf nse w).1
    = (if legacy_warns (get_nifty_50_symbols nse)
       then Some "NSE data download failed. Using a small, cached list for demonstration/fallback."
       else None).
Proof.
  assert (Hlegacy : status (LegacyIndexApi.get_nifty50_data float_of_str yf nse w).1
                    = (if legacy_warns (get_nifty_50_symbols nse)
                       then "warning" else "success")).
  { destruct (legacy_warns (get_nifty_50_symbols nse)) eqn:Hwarn.
    - rewrite (legacy_get_nifty50_data_warning _ _ _ _ Hwarn). reflexivity.
    - rewrite (legacy_get_nifty50_data_success _ _ _ _ Hwarn),
        app_get_nifty50_data_run. reflexivity. }
  split; [rewrite app_get_nifty50_data_run; reflexivity|].
  split; [rewrite app_get_sensex_data_run; reflexivity|].
  split; [rewrite legacy_get_sensex_data_run, app_get_sensex_data_run; reflexivity|].
  split; [exact Hlegacy|].
  split.
  { intros Hfail. rewrite Hlegacy.
    apply remote_failure_iff_raises in Hfail. destruct Hfail as [e He].
    rewrite (get_nifty_50_symbols_of_raise _ _ He). reflexivity. }
  split.
  { intros nse' Hsame.
    unfold IndexApi.get_nifty50_data, LegacyIndexApi.get_nifty50_data,
      LegacyIndexApi.get_nifty_50_symbols.
    rewrite Hsame. split; reflexivity. }
  split; [rewrite app_get_nifty50_data_run; reflexivity|].
  split; [rewrite app_get_sensex_data_run; reflexivity|].
  split; [rewrite legacy_get_sensex_data_run, app_get_sensex_data_run; reflexivity|].
  destruct (legacy_warns (get_nifty_50_symbols nse)) eqn:Hwarn.
  - rewrite (legacy_get_nifty50_data_warning _ _ _ _ Hwarn). reflexivity.
  - rewrite (legacy_get_nifty50_data_success _ _ _ _ Hwarn),
      app_get_nifty50_data_run. reflexivity.
Qed.

(** The older NIFTY 50 endpoint when the archive times out. *)
Lemma report_status_witness :
  status (LegacyIndexApi.get_nifty50_data no_float (yf_const (info_priced 150 100 200))
            nse_timeout tt).1 = "warning".
Proof.
  destruct (report_status no_float (yf_const (info_priced 150 100 200))
              nse_timeout tt) as (_ & _ & _ & _ & Hwarn & _).
  apply Hwarn. apply (landing_unreachable nse_timeout Timeout). reflexivity.
Defined.

(** C7, as stated, fails on each count.  When the archive times out the
    resolver falls back and the NIFTY 50 endpoint of
    [app/api/index_api.py] still reports "success".  When the archive
    answers with a header-only document the remote source was used, and
    the older NIFTY 50 endpoint reports "warning".  And the source is not
    reported: an archive that times out and an archive that serves the
    seven symbols of the fallback list get the same report from the NIFTY
    50 endpoint of [app/api/index_api.py], and the same report, a
    "warning", from the older one. *)
Lemma report_status_counterexample :
  (remote_failure nse_timeout /\
   status (IndexApi.get_nifty50_data no_float (yf_const (info_priced 150 100 200))
             nse_timeout tt).1 = "success") /\
  (~ remote_failure nse_header_only /\
   status (LegacyIndexApi.get_nifty50_data no_float (yf_const (info_priced 150 100 200))
             nse_header_only tt).1 = "warning") /\
  (~ remote_failure nse_serving_fallback /\
   IndexApi.get_nifty50_data no_float (yf_const (info_priced 150 100 200))
     nse_serving_fallback tt
   = IndexApi.get_nifty50_data no_float (yf_const (info_priced 150 100 200))
       nse_timeout tt /\
   LegacyIndexApi.get_nifty50_data no_float (yf_const (info_priced 150 100 200))
     nse_serving_fallback tt
   = LegacyIndexApi.get_nifty50_data no_float (yf_const (info_priced 150 100 200))
       nse_timeout tt /\
   status (LegacyIndexApi.get_nifty50_data no_float (yf_const (info_priced 150 100 200))
             nse_serving_fallback tt).1 = "warning").
Proof.
  assert (Hused : forall nse cells,
            nifty_download nse = Ok cells -> ~ remote_failure nse).
  { intros nse cells Hok Hfail. apply remote_failure_iff_raises in Hfail.
    destruct Hfail as [e He]. congruence. }
  split; [|split]; split.
  - apply (landing_unreachable nse_timeout Timeout). reflexivity.
  - vm_compute. reflexivity.
  - apply (Hused _ []). reflexivity.
  - vm_compute. reflexivity.
  - apply (Hused _ NIFTY_FALLBACK). reflexivity.
  - repeat split; vm_compute; reflexivity.
Qed.

End ReportClaims.

(* ====================================================================== *)
(** ** The live-quote fetch                                               *)
(* ====================================================================== *)

Section LiveQuote.
Import StockApi Props Fixtures.

(** Without a value at [info.symbol] the guard either answers "no data"
    or raises. *)
Lemma no_symbol_absent (data : json) :
  info_symbol data = None \/ info_symbol data = Some JNull ->
  no_symbol data = Ok true \/ raises (no_symbol data).
Proof.
  unfold no_symbol, raises. intros Habsent.
  destruct (json_truthy data) eqn:Htruthy; cbn [negb]; [|left; reflexivity].
  destruct data as [| b | z | q | s | items | members];
    cbn [py_contains mbind outcome_bind]; eauto.
  - destruct (bool_decide _); cbn; eauto.
  - destruct (existsb _ items); cbn; eauto.
  - cbn [info_symbol] in Habsent. cbn [py_getitem].
    destruct (assoc "info" members) as [v|] eqn:Hinfo; [|left; reflexivity].
    cbn. destruct v as [| b | z | q | s | items | info]; cbn; eauto.
    destruct Habsent as [-> | ->]; left; reflexivity.
Qed.

(** With a value at [info.symbol] the guard lets the document through. *)
Lemma no_symbol_present (data s : json) :
  info_symbol data = Some s -> s <> JNull -> no_symbol data = Ok false.
Proof.
  unfold no_symbol. intros Hsym Hs.
  destruct data as [| b | z | q | t | items | members]; try discriminate.
  cbn [info_symbol] in Hsym.
  destruct (assoc "info" members) as [v|] eqn:Hinfo; [|discriminate].
  destruct v as [| b | z | q | t | items | info]; try discriminate.
  destruct members as [|m members]; [discriminate|].
  cbn [json_truthy negb py_contains py_getitem mbind outcome_bind].
  rewrite Hinfo. cbn. rewrite Hsym. cbn.
  destruct s; try reflexivity. congruence.
Qed.

(** What a quote built by the dictionary literal holds. *)
Lemma map_quote_fields (data : json) (q : quote) :
  map_quote data = Ok q ->
  py_getitem2 data "info" "symbol" = Ok (symbol q) /\
  py_getitem2 data "info" "companyName" = Ok (companyName q) /\
  py_getitem2 data "priceInfo" "lastPrice" = Ok (lastPrice q) /\
  py_getitem2 data "priceInfo" "change" = Ok (change q) /\
  py_getitem2 data "priceInfo" "pChange" = Ok (pChange q) /\
  py_getitem2 data "securityWisePCR" "high52Week" = Ok (high52Week q) /\
  py_getitem2 data "securityWisePCR" "low52Week" = Ok (low52Week q) /\
  (exists issuedCap,
     py_getitem2 data "securityInfo" "issuedCap" = Ok issuedCap /\
     py_mul issuedCap (lastPrice q) = Ok (marketCapital q)) /\
  py_getitem2 data "metadata" "industry" = Ok (industry q).
Proof.
  unfold map_quote.
  destruct (py_getitem2 data "info" "symbol") as [v1|]; [|discriminate].
  destruct (py_getitem2 data "info" "companyName") as [v2|]; [|discriminate].
  destruct (py_getitem2 data "priceInfo" "lastPrice") as [v3|]; [|discriminate].
  destruct (py_getitem2 data "priceInfo" "change") as [v4|]; [|discriminate].
  destruct (py_getitem2 data "priceInfo" "pChange") as [v5|]; [|discriminate].
  destruct (py_getitem2 data "securityWisePCR" "high52Week") as [v6|]; [|discriminate].
  destruct (py_getitem2 data "securityWisePCR" "low52Week") as [v7|]; [|discriminate].
  destruct (py_getitem2 data "securityInfo" "issuedCap") as [cap|]; [|discriminate].
  cbn [mbind outcome_bind].
  destruct (py_mul cap v3) as [v8|] eqn:Hmul; [|discriminate].
  destruct (py_getitem2 data "metadata" "industry") as [v9|]; [|discriminate].
  cbn [mbind outcome_bind]. intros [= <-]. cbn.
  repeat split. exists cap. split; [reflexivity | exact Hmul].
Qed.

Lemma fetch_live_quote_of_raise (site : nse_site) (sym : string) :
  raises (live_quote_body site sym) -> fetch_live_quote_data site sym = None.
Proof. unfold fetch_live_quote_data. intros [e ->]. reflexivity. Qed.

(** C9: the live-quote fetch never propagates an error.  For every symbol:
    if the body of the response is not JSON the result is None; if it
    parses and there is no value at info.symbol (the path is missing, or
    holds null) the result is None; if anything raises during the fetch or
    the mapping the result is None; otherwise (both requests answer, the
    status raises nothing, the body parses, info.symbol has a value and
    the mapping raises nothing) the result is the quote whose fields are
    read at the fixed paths, its marketCapital being issuedCap times
    lastPrice. *)
Theorem live_quote_never_raises (site : nse_site) (sym : string) :
  (forall response,
     session_get site (QUOTE_API_URL +:+ sym) = Ok response ->
     json_body response = Raise JSONDecodeError ->
     fetch_live_quote_data site sym = None) /\
  (forall response data,
     session_get site (QUOTE_API_URL +:+ sym) = Ok response ->
     json_body response = Ok data ->
     info_symbol data = None \/ info_symbol data = Some JNull ->
     fetch_live_quote_data site sym = None) /\
  (raises (live_quote_body site sym) -> fetch_live_quote_data site sym = None) /\
  (forall landing response data s q,
     session_get site NSE_BASE_URL = Ok landing ->
     session_get site (QUOTE_API_URL +:+ sym) = Ok response ->
     raise_for_status response = Ok tt ->
     json_body response = Ok data ->
     info_symbol data = Some s -> s <> JNull ->
     map_quote data = Ok q ->
     fetch_live_quote_data site sym = Some q /\
     symbol q = s /\
     py_getitem2 data "info" "companyName" = Ok (companyName q) /\
     py_getitem2 data "priceInfo" "lastPrice" = Ok (lastPrice q) /\
     py_getitem2 data "priceInfo" "change" = Ok (change q) /\
     py_getitem2 data "priceInfo" "pChange" = Ok (pChange q) /\
     py_getitem2 data "securityWisePCR" "high52Week" = Ok (high52Week q) /\
     py_getitem2 data "securityWisePCR" "low52Week" = Ok (low52Week q) /\
     (exists issuedCap,
        py_getitem2 data "securityInfo" "issuedCap" = Ok issuedCap /\
        py_mul issuedCap (lastPrice q) = Ok (marketCapital q)) /\
     py_getitem2 data "metadata" "industry" = Ok (industry q)).
Proof.
  split; [|split; [|split]].
  - intros response Hget Hbody.
    unfold fetch_live_quote_data, live_quote_body, mbind, outcome_bind.
    destruct (session_get site NSE_BASE_URL); [|reflexivity].
    rewrite Hget. destruct (raise_for_status response); [|reflexivity].
    rewrite Hbody. reflexivity.
  - intros response data Hget Hbody Habsent.
    unfold fetch_live_quote_data, live_quote_body, mbind, outcome_bind.
    destruct (session_get site NSE_BASE_URL); [|reflexivity].
    rewrite Hget. destruct (raise_for_status response); [|reflexivity].
    rewrite Hbody.
    destruct (no_symbol_absent data Habsent) as [-> | [e ->]]; reflexivity.
  - apply fetch_live_quote_of_raise.
  - intros landing response data s q Hlanding Hget Hstatus Hbody Hsym Hs Hmap.
    pose proof (map_quote_fields data q Hmap)
      as (Hsymbol & Hname & Hprice & Hchange & HpChange & Hhigh & Hlow & Hcap & Hind).
    split.
    + unfold fetch_live_quote_data, live_quote_body, mbind, outcome_bind.
      rewrite Hlanding, Hget, Hstatus, Hbody, (no_symbol_present data s Hsym Hs), Hmap.
      reflexivity.
    + split; [|tauto].
      (* the symbol read by the literal is the one the guard saw *)
      destruct data as [| b | z | x | t | items | members]; try discriminate.
      cbn [info_symbol] in Hsym. unfold py_getitem2 in Hsymbol. cbn in Hsymbol.
      destruct (assoc "info" members) as [v|]; [|discriminate].
      destruct v as [| b | z | x | t | items | info]; try discriminate.
      cbn in Hsymbol. rewrite Hsym in Hsymbol. congruence.
Qed.

(** A parsed quote document for SBIN: issued capital 1000, last price 812.5. *)
Lemma live_quote_never_raises_witness :
  fetch_live_quote_data (site_with (Ok (quote_document (JStr "SBIN")))) "SBIN"
  = Some {| symbol := JStr "SBIN";
            companyName := JStr "State Bank of India";
            lastPrice := JFloat (8125 # 10);
            change := JFloat (5 # 2);
            pChange := JFloat (31 # 100);
            high52Week := JInt 900;
            low52Week := JInt 600;
            marketCapital := JFloat (inject_Z 1000 * (8125 # 10));
            industry := JStr "Banks" |}.
Proof.
  destruct (live_quote_never_raises (site_with (Ok (quote_document (JStr "SBIN")))) "SBIN")
    as (_ & _ & _ & Hquote).
  refine (proj1 (Hquote {| status_code := 200; json_body := Ok (quote_document (JStr "SBIN")) |}
                   {| status_code := 200; json_body := Ok (quote_document (JStr "SBIN")) |}
                   (quote_document (JStr "SBIN")) (JStr "SBIN") _
                   eq_refl eq_refl eq_refl eq_refl eq_refl _ eq_refl)).
  discriminate.
Defined.

(** The same site when the market is closed (the body is not JSON), and
    when the document holds null at [info.symbol]. *)
Lemma live_quote_no_data_runs :
  fetch_live_quote_data (site_with (Raise JSONDecodeError)) "SBIN" = None /\
  fetch_live_quote_data (site_with (Ok (quote_document JNull))) "SBIN" = None /\
  fetch_live_quote_data (site_with (Ok (JStr "info"))) "SBIN" = None.
Proof. repeat split; reflexivity. Qed.

End LiveQuote.

(* ====================================================================== *)
(** ** The other copies of the constituent download                       *)
(* ====================================================================== *)

Section Downloads.
Import IndexApi Props MoreProps Fixtures MoreFixtures.

Lemma raise_for_status_ok (response : http_response) :
  raise_for_status response = Ok tt <-> ~ (400 <= status_code response < 600)%nat.
Proof.
  unfold raise_for_status.
  destruct (Nat.leb_spec 400 (status_code response));
    destruct (Nat.ltb_spec (status_code response) 600); cbn;
    (split; [intros Heq; first [discriminate | lia]
            | intros Hno; first [reflexivity | exfalso; lia]]).
Qed.

(** The [try] block succeeds exactly on a download that went through. *)
Lemma nifty_download_ok (nse : nse_archive) (cells : list string) :
  nifty_download nse = Ok cells <-> exists df, downloaded nse df cells.
Proof.
  unfold nifty_download, symbol_column, downloaded, mbind, outcome_bind. split.
  - destruct (landing_get nse) as [[]|]; [|discriminate].
    destruct (nifty50list_get nse) as [response|]; [|discriminate].
    destruct (raise_for_status response) as [[]|] eqn:Hstatus; [|discriminate].
    destruct (content_csv response) as [df|] eqn:Hcsv; [|discriminate].
    destruct (df !! "Symbol") as [col|] eqn:Hcol; [|discriminate].
    intros [= <-]. exists df, response.
    apply raise_for_status_ok in Hstatus. repeat split; assumption.
  - intros (df & response & -> & -> & Hstatus & Hcsv & Hcol).
    apply raise_for_status_ok in Hstatus. rewrite Hstatus, Hcsv, Hcol. reflexivity.
Qed.

Lemma fetcher_of_download (nse : nse_archive) :
  NseDataFetcher.get_nifty_50_symbols nse =
  match nifty_download nse with
  | Ok cells => Some cells
  | Raise _ => None
  end.
Proof.
  unfold NseDataFetcher.get_nifty_50_symbols.
  destruct (nifty_download nse) as [cells|e]; [reflexivity|].
  destruct (is_RequestException e); [reflexivity|]. destruct e; reflexivity.
Qed.

Lemma constituents_of_download (nse : nse_archive) :
  StockProjectMain.get_nifty_50_constituents nse =
  match StockProjectMain.constituents_download nse with
  | Ok df => Some df
  | Raise _ => None
  end.
Proof.
  unfold StockProjectMain.get_nifty_50_constituents.
  destruct (StockProjectMain.constituents_download nse) as [df|e]; [reflexivity|].
  destruct (is_RequestException e); [reflexivity|]. destruct e; reflexivity.
Qed.

(** The symbol download is the frame download followed by the column
    lookup. *)
Lemma nifty_download_by_frame (nse : nse_archive) :
  nifty_download nse = (df ← StockProjectMain.constituents_download nse; symbol_column df).
Proof.
  unfold nifty_download, StockProjectMain.constituents_download, mbind, outcome_bind.
  destruct (landing_get nse); [|reflexivity].
  destruct (nifty50list_get nse) as [response|]; [|reflexivity].
  destruct (raise_for_status response); [|reflexivity].
  destruct (content_csv response); reflexivity.
Qed.

(** X1: [get_nifty_50_symbols] of nse_data_fetcher.py returns None exactly
    in the failure modes of the remote source, and the list [cells]
    exactly when the download went through with [cells] in the column
    'Symbol'; the script below it starts its analysis exactly when the
    download went through with at least one symbol. *)
Theorem fetcher_none_iff_failure (nse : nse_archive) :
  (NseDataFetcher.get_nifty_50_symbols nse = None <-> remote_failure nse) /\
  (forall cells,
     NseDataFetcher.get_nifty_50_symbols nse = Some cells <->
     exists df, downloaded nse df cells) /\
  (NseDataFetcher.analysis_starts nse = true <->
   exists df first rest, downloaded nse df (first :: rest)).
Proof.
  split; [|split].
  - rewrite fetcher_of_download, remote_failure_iff_raises. unfold raises.
    destruct (nifty_download nse) as [cells|e]; split.
    + discriminate.
    + intros [e He]. discriminate.
    + eauto.
    + reflexivity.
  - intros cells. rewrite <- nifty_download_ok, fetcher_of_download.
    destruct (nifty_download nse); split; congruence.
  - unfold NseDataFetcher.analysis_starts. rewrite fetcher_of_download.
    destruct (nifty_download nse) as [[|first rest]|e] eqn:Hdownload; split;
      try discriminate.
    + intros (df & f & r & H). apply (ex_intro (fun df => downloaded nse df (f :: r)) df) in H.
      apply nifty_download_ok in H. congruence.
    + intros _. apply nifty_download_ok in Hdownload. destruct Hdownload as [df H].
      eauto.
    + reflexivity.
    + intros (df & f & r & H). apply (ex_intro (fun df => downloaded nse df (f :: r)) df) in H.
      apply nifty_download_ok in H. congruence.
Qed.

(** X2: the copies of the resolver agree.  The resolver of index_api.py
    returns what the one of nse_data_fetcher.py returns, with the 7-symbol
    list in place of None; the one of stock_api.py returns the same, with
    its own 6-symbol list in place of None; and the one of
    nse_data_fetcher.py returns the column 'Symbol' of the frame that
    [get_nifty_50_constituents] of stock_project_main.py returns, None
    when there is no frame or no such column. *)
Theorem resolvers_agree (nse : nse_archive) :
  IndexApi.get_nifty_50_symbols nse
    = default IndexApi.NIFTY_FALLBACK (NseDataFetcher.get_nifty_50_symbols nse) /\
  StockApiEndpoint.get_nifty_50_symbols nse
    = default StockApiEndpoint.NIFTY_FALLBACK (NseDataFetcher.get_nifty_50_symbols nse) /\
  NseDataFetcher.get_nifty_50_symbols nse
    = (df ← StockProjectMain.get_nifty_50_constituents nse; df !! "Symbol").
Proof.
  rewrite fetcher_of_download. split; [|split].
  - destruct (nifty_download nse) as [cells|e] eqn:Hdownload; cbn.
    + apply get_nifty_50_symbols_of_ok. exact Hdownload.
    + apply (get_nifty_50_symbols_of_raise _ e). exact Hdownload.
  - unfold StockApiEndpoint.get_nifty_50_symbols.
    destruct (nifty_download nse); reflexivity.
  - rewrite constituents_of_download, nifty_download_by_frame.
    destruct (StockProjectMain.constituents_download nse) as [df|e]; cbn;
      [|reflexivity].
    unfold symbol_column. destruct (df !! "Symbol"); reflexivity.
Qed.

(** X3: [get_nifty_50_constituents] reads no column.  It returns the
    frame [df] exactly when both requests were answered, the status is
    neither 4xx nor 5xx and the document parsed to [df]; so a document
    without the column 'Symbol', on which the symbol resolvers fall back
    or return None, is returned as it is. *)
Theorem constituents_need_no_column (nse : nse_archive) :
  (forall df,
     StockProjectMain.get_nifty_50_constituents nse = Some df <->
     exists response,
       landing_get nse = Ok tt /\
       nifty50list_get nse = Ok response /\
       ~ (400 <= status_code response < 600)%nat /\
       content_csv response = Ok df) /\
  (forall df,
     StockProjectMain.get_nifty_50_constituents nse = Some df ->
     df !! "Symbol" = None ->
     NseDataFetcher.get_nifty_50_symbols nse = None /\
     IndexApi.get_nifty_50_symbols nse = IndexApi.NIFTY_FALLBACK).
Proof.
  split.
  - intros df. rewrite constituents_of_download.
    unfold StockProjectMain.constituents_download, mbind, outcome_bind. split.
    + destruct (landing_get nse) as [[]|]; [|discriminate].
      destruct (nifty50list_get nse) as [response|]; [|discriminate].
      destruct (raise_for_status response) as [[]|] eqn:Hstatus; [|discriminate].
      destruct (content_csv response) as [df'|] eqn:Hcsv; [|discriminate].
      intros [= <-]. exists response. apply raise_for_status_ok in Hstatus.
      repeat split; assumption.
    + intros (response & -> & -> & Hstatus & Hcsv).
      apply raise_for_status_ok in Hstatus. rewrite Hstatus, Hcsv. reflexivity.
  - intros df Hframe Hcol.
    assert (Hdownload : nifty_download nse = Raise KeyError).
    { rewrite nifty_download_by_frame. rewrite constituents_of_download in Hframe.
      destruct (StockProjectMain.constituents_download nse) as [df'|]; [|discriminate].
      injection Hframe as ->. cbn. unfold symbol_column. rewrite Hcol. reflexivity. }
    split.
    + rewrite fetcher_of_download, Hdownload. reflexivity.
    + apply (get_nifty_50_symbols_of_raise _ KeyError). exact Hdownload.
Qed.

(** A document with a company column only. *)
Lemma constituents_need_no_column_witness :
  NseDataFetcher.get_nifty_50_symbols nse_other_columns = None /\
  IndexApi.get_nifty_50_symbols nse_other_columns = IndexApi.NIFTY_FALLBACK.
Proof.
  destruct (constituents_need_no_column nse_other_columns) as [_ Hframe].
  apply (Hframe {[ "Company Name" := ["State Bank of India"] ]}); reflexivity.
Defined.

End Downloads.

(* ====================================================================== *)
(** ** The quote endpoint                                                 *)
(* ====================================================================== *)

Section QuoteEndpoint.
Import StockApi StockApiEndpoint Props Fixtures MoreFixtures.

(** A guard that lets a document through saw a value at [info.symbol]. *)
Lemma no_symbol_false_inv (data : json) :
  no_symbol data = Ok false -> exists s, info_symbol data = Some s /\ s <> JNull.
Proof.
  intros Hguard.
  destruct (info_symbol data) as [s|] eqn:Hsym.
  - destruct s; try (eexists; split; [reflexivity | discriminate]).
    destruct (no_symbol_absent data (or_intror Hsym)) as [H | [e H]]; congruence.
  - destruct (no_symbol_absent data (or_introl Hsym)) as [H | [e H]]; congruence.
Qed.

Lemma getitem2_info_symbol (data s s' : json) :
  info_symbol data = Some s -> py_getitem2 data "info" "symbol" = Ok s' -> s' = s.
Proof.
  intros Hsym Hget.
  destruct data as [| b | z | x | t | items | members]; try discriminate.
  cbn [info_symbol] in Hsym. unfold py_getitem2 in Hget. cbn in Hget.
  destruct (assoc "info" members) as [v|]; [|discriminate].
  destruct v as [| b | z | x | t | items | info]; try discriminate.
  cbn in Hget. rewrite Hsym in Hget. congruence.
Qed.

(** Nothing multiplies with [None]. *)
Lemma py_mul_None (a : json) :
  py_mul a JNull = Raise TypeError /\ py_mul JNull a = Raise TypeError.
Proof. split; destruct a as [| [|] | | | | |]; reflexivity. Qed.

(** A quote that is returned was mapped from a parsed document that
    passed the guard. *)
Lemma live_quote_some_inv (site : nse_site) (sym : string) (q : quote) :
  fetch_live_quote_data site sym = Some q ->
  exists response data,
    session_get site (QUOTE_API_URL +:+ sym) = Ok response /\
    json_body response = Ok data /\
    no_symbol data = Ok false /\
    map_quote data = Ok q.
Proof.
  unfold fetch_live_quote_data, live_quote_body, mbind, outcome_bind.
  destruct (session_get site NSE_BASE_URL); [|discriminate].
  destruct (session_get site (QUOTE_API_URL +:+ sym)) as [response|]; [|discriminate].
  destruct (raise_for_status response); [|discriminate].
  destruct (json_body response) as [data|e] eqn:Hbody;
    [|destruct e; discriminate].
  destruct (no_symbol data) as [[|]|] eqn:Hguard; try discriminate.
  destruct (map_quote data) as [q'|] eqn:Hmap; [|discriminate].
  intros [= <-]. exists response, data. repeat split; assumption.
Qed.

Lemma live_quote_fields_present (site : nse_site) (sym : string) (q : quote) :
  fetch_live_quote_data site sym = Some q ->
  symbol q <> JNull /\ lastPrice q <> JNull /\
  exists issuedCap,
    issuedCap <> JNull /\ py_mul issuedCap (lastPrice q) = Ok (marketCapital q).
Proof.
  intros Hsome.
  destruct (live_quote_some_inv _ _ _ Hsome) as (response & data & _ & _ & Hguard & Hmap).
  destruct (no_symbol_false_inv _ Hguard) as (s & Hsym & Hs).
  pose proof (map_quote_fields data q Hmap)
    as (Hsymbol & _ & _ & _ & _ & _ & _ & (cap & _ & Hmul) & _).
  rewrite (getitem2_info_symbol _ _ _ Hsym Hsymbol).
  split; [exact Hs|]. split.
  - intros Hnull. rewrite Hnull in Hmul.
    rewrite (proj1 (py_mul_None cap)) in Hmul. discriminate.
  - exists cap. split; [|exact Hmul].
    intros ->. rewrite (proj2 (py_mul_None _)) in Hmul. discriminate.
Qed.

(** X4: a quote returned by [fetch_live_quote_data] has a non-null symbol
    and a non-null lastPrice, and its marketCapital is the product of a
    non-null issuedCap with that lastPrice: a document whose lastPrice or
    issuedCap is null yields no quote at all. *)
Theorem live_quote_has_symbol_and_price (site : nse_site) (sym : string) (q : quote) :
  fetch_live_quote_data site sym = Some q ->
  symbol q <> JNull /\ lastPrice q <> JNull /\
  exists issuedCap,
    issuedCap <> JNull /\ py_mul issuedCap (lastPrice q) = Ok (marketCapital q).
Proof. apply live_quote_fields_present. Qed.

(** The SBIN document of the fixtures. *)
Lemma live_quote_has_symbol_and_price_witness :
  JStr "SBIN" <> JNull /\ JFloat (8125 # 10) <> JNull /\
  exists issuedCap,
    issuedCap <> JNull /\
    py_mul issuedCap (JFloat (8125 # 10)) = Ok (JFloat (inject_Z 1000 * (8125 # 10))).
Proof.
  exact (live_quote_has_symbol_and_price
           (site_with (Ok (quote_document (JStr "SBIN")))) "SBIN" _ eq_refl).
Defined.

Section Endpoint.
Variable upper : string -> string.
Variable str_of_list : list string -> string.
Variable NIFTY_SYMBOLS : list string.

(** X5: whatever [get_stock_data] returns is one of two answers: status
    200 with "success", no message, and the quote that
    [fetch_live_quote_data] returned for the upper-cased symbol, whose
    symbol and lastPrice are not null; or status 404 with "error", a
    message and no data. *)
Theorem stock_endpoint_answers
    (is_valid_code : string -> outcome bool) (site : nse_site)
    (sym : string) (r : response) :
  get_stock_data upper str_of_list NIFTY_SYMBOLS is_valid_code site sym = Ok r ->
  (http_status r = 200%nat /\ status r = "success" /\ message r = None /\
   exists q, data r = Some q /\
             fetch_live_quote_data site (upper sym) = Some q /\
             symbol q <> JNull /\ lastPrice q <> JNull) \/
  (http_status r = 404%nat /\ status r = "error" /\ data r = None /\
   exists m, message r = Some m).
Proof.
  unfold get_stock_data, mbind, outcome_bind.
  destruct (if negb (bool_decide (upper sym ∈ NIFTY_SYMBOLS)) then _ else _)
    as [[|]|]; [| |discriminate].
  - intros [= <-]. right. cbn. eauto.
  - destruct (fetch_live_quote_data site (upper sym)) as [q|] eqn:Hquote.
    + intros [= <-]. left. cbn. repeat split. exists q.
      destruct (live_quote_fields_present _ _ _ Hquote) as (Hs & Hp & _). auto.
    + intros [= <-]. right. cbn. eauto.
Qed.

(** X6: the gate of [get_stock_data].  A symbol whose upper-cased form is
    in the pre-fetched list is never put to the validity check.  A symbol
    that is not in the list and that the check rejects gets the 404
    "not recognized" answer whatever the quote site would say; and when
    the check raises, the exception leaves the endpoint. *)
Theorem stock_endpoint_gate (sym : string) :
  (upper sym ∈ NIFTY_SYMBOLS ->
   forall check check' site,
     get_stock_data upper str_of_list NIFTY_SYMBOLS check site sym
     = get_stock_data upper str_of_list NIFTY_SYMBOLS check' site sym) /\
  (upper sym ∉ NIFTY_SYMBOLS ->
   forall check site,
     (check (upper sym) = Ok false ->
      get_stock_data upper str_of_list NIFTY_SYMBOLS check site sym
      = Ok {| http_status := 404;
              status := "error";
              message :=
                Some ("Symbol '" +:+ upper sym +:+
                      "' is not a recognized Nifty 50 or general NSE ticker. Try one of: "
                      +:+ str_of_list (take 5 NIFTY_SYMBOLS));
              data := None |}) /\
     (forall e, check (upper sym) = Raise e ->
                get_stock_data upper str_of_list NIFTY_SYMBOLS check site sym
                = Raise e)).
Proof.
  split.
  - intros Hin check check' site. unfold get_stock_data.
    rewrite (bool_decide_eq_true_2 _ Hin). reflexivity.
  - intros Hout check site. unfold get_stock_data.
    rewrite (bool_decide_eq_false_2 _ Hout). cbn [negb].
    split; [intros -> | intros e ->]; reflexivity.
Qed.

End Endpoint.

(** The SBIN document, asked for in lower case. *)
Lemma stock_endpoint_answers_witness :
  exists r,
    get_stock_data ascii_upper str_of_tickers ["SBIN"; "ITC"] unreachable_check
      (site_with (Ok (quote_document (JStr "SBIN")))) "sbin" = Ok r /\
    http_status r = 200%nat.
Proof.
  eexists. split; [reflexivity|].
  destruct (stock_endpoint_answers ascii_upper str_of_tickers ["SBIN"; "ITC"]
              unreachable_check (site_with (Ok (quote_document (JStr "SBIN"))))
              "sbin" _ eq_refl) as [(H & _) | (H & _)].
  - exact H.
  - discriminate H.
Defined.

(** A ticker outside the list, rejected by the check. *)
Lemma stock_endpoint_gate_witness :
  get_stock_data ascii_upper str_of_tickers ["SBIN"; "ITC"] knows_nothing
    (site_with (Ok (quote_document (JStr "SBIN")))) "xyz"
  = Ok {| http_status := 404;
          status := "error";
          message :=
            Some "Symbol 'XYZ' is not a recognized Nifty 50 or general NSE ticker. Try one of: ['SBIN', 'ITC']";
          data := None |}.
Proof.
  refine (proj1 (proj2 (stock_endpoint_gate ascii_upper str_of_tickers ["SBIN"; "ITC"] "xyz")
                   _ knows_nothing _) eq_refl).
  apply (bool_decide_unpack _). vm_compute. exact I.
Defined.

End QuoteEndpoint.

(* ====================================================================== *)
(** ** The historical endpoint                                            *)
(* ====================================================================== *)

Section Rounding2.
Import MoreProps.
Local Open Scope Q_scope.



Lemma round2_whole_cents (q : Q) : whole_cents (round2 q).
Proof. exists (round_half_even (q * 100)). apply round2_eq. Qed.

End Rounding2.

Section Historical.
Import HistoricalApi MoreProps MoreFixtures.
Local Open Scope Z_scope.

Lemma leap_not_two_years_before (y : Z) : is_leap y = true -> is_leap (y - 2) = false.
Proof.
  unfold is_leap. intros H. apply andb_true_iff in H. destruct H as [H4 _].
  apply Z.eqb_eq in H4.
  assert (Hmod : (y - 2) mod 4 = 2) by (Z.div_mod_to_equations; lia).
  rewrite Hmod. reflexivity.
Qed.

(** X7: loading historical_api.py fails on a leap day.  For every
    existing date [END_DATE] from the year 3 on, the computation of
    [START_DATE] raises ValueError exactly when [END_DATE] is a 29th of
    February; on every other day it is the same day and month two years
    earlier. *)
Theorem start_date_fails_on_leap_day (END_DATE : date) :
  valid_date END_DATE = true ->
  3 <= year END_DATE ->
  (START_DATE END_DATE = Raise ValueError <->
   month END_DATE = 2 /\ day END_DATE = 29) /\
  (~ (month END_DATE = 2 /\ day END_DATE = 29) ->
   START_DATE END_DATE
   = Ok {| year := year END_DATE - 2; month := month END_DATE; day := day END_DATE |}).
Proof.
  destruct END_DATE as [y m d]. cbn [year month day].
  unfold valid_date, START_DATE, py_date, valid_date. cbn [year month day].
  intros Hvalid Hyear.
  repeat (apply andb_true_iff in Hvalid; destruct Hvalid as [Hvalid ?]).
  repeat match goal with H : (_ <=? _) = true |- _ => apply Z.leb_le in H end.
  assert (Hy1 : (1 <=? y - 2) = true) by (apply Z.leb_le; lia).
  assert (Hy2 : (y - 2 <=? 9999) = true) by (apply Z.leb_le; lia).
  assert (Hm1 : (1 <=? m) = true) by (apply Z.leb_le; lia).
  assert (Hm2 : (m <=? 12) = true) by (apply Z.leb_le; lia).
  assert (Hd1 : (1 <=? d) = true) by (apply Z.leb_le; lia).
  rewrite Hy1, Hy2, Hm1, Hm2, Hd1. cbn [andb].
  destruct (Z.eqb_spec m 2) as [-> | Hne].
  - (* February: 28 days two years before a leap year *)
    assert (Hbefore : days_in_month (y - 2) 2 = 28 \/
                      (days_in_month (y - 2) 2 = 29 /\ days_in_month y 2 = 28)).
    { unfold days_in_month. cbn.
      destruct (is_leap y) eqn:Hleap.
      - rewrite (leap_not_two_years_before _ Hleap). left. reflexivity.
      - destruct (is_leap (y - 2)); [right | left]; split; reflexivity. }
    destruct (Z.eq_dec d 29) as [-> | Hd].
    + assert (Hshort : (29 <=? days_in_month (y - 2) 2) = false).
      { apply Z.leb_gt. lia. }
      rewrite Hshort. split; [split; [split; reflexivity | reflexivity]|].
      intros Hno. exfalso. apply Hno. split; reflexivity.
    + assert (Hfits : (d <=? days_in_month (y - 2) 2) = true).
      { apply Z.leb_le.
        assert (d <= 29) by (unfold days_in_month in *; cbn in *;
                             destruct (is_leap y); lia).
        lia. }
      rewrite Hfits. split; [split; [discriminate | intros [_ ?]; lia]|].
      reflexivity.
  - assert (Hdays : days_in_month (y - 2) m = days_in_month y m).
    { unfold days_in_month. destruct (Z.eqb_spec m 2); [contradiction | reflexivity]. }
    rewrite Hdays.
    assert (Hfits : (d <=? days_in_month y m) = true) by (apply Z.leb_le; lia).
    rewrite Hfits. split; [split; [discriminate | intros [? _]; lia]|].
    reflexivity.
Qed.

(** The 29th of February 2024. *)
Lemma start_date_fails_on_leap_day_witness :
  START_DATE (ymd 2024 2 29) = Raise ValueError.
Proof.
  apply (start_date_fails_on_leap_day (ymd 2024 2 29));
    [reflexivity | cbn; lia | split; reflexivity].
Defined.

Section Fetch.
Context {W : Type}.
Variable yf : yfinance W.
Variables START END : date.

Lemma fetch_stock_data_unfold (sym : string) (w : W) :
  fetch_stock_data yf START END sym w =
  match ticker_info yf (sym +:+ NSE_SUFFIX) w with
  | (Raise e, w1) => (Raise e, w1)
  | (Ok info, w1) =>
      match ticker_history yf (sym +:+ NSE_SUFFIX) START END w1 with
      | (Raise e, w2) => (Raise e, w2)
      | (Ok [], w2) =>
          (Ok (ErrorDict ("No historical data found for " +:+ sym +:+
                          " on Yahoo Finance.")), w2)
      | (Ok (row :: rows), w2) =>
          match ticker_dividends yf (sym +:+ NSE_SUFFIX) w2 with
          | (Raise e, w3) => (Raise e, w3)
          | (Ok dividends, w3) =>
              match ticker_splits yf (sym +:+ NSE_SUFFIX) w3 with
              | (Raise e, w4) => (Raise e, w4)
              | (Ok splits, w4) =>
                  (Ok (DataDict
                         {| low52Week := IndexApi.dict_get info "fiftyTwoWeekLow" PyNone;
                            high52Week := IndexApi.dict_get info "fiftyTwoWeekHigh" PyNone |}
                         (map eod_of_row (row :: rows))
                         (map dividend_action dividends ++ map split_action splits)),
                   w4)
              end
          end
      end
  end.
Proof.
  unfold fetch_stock_data, mbind, io_bind, mret, io_ret.
  destruct (ticker_info yf _ w) as [[info|e] w1]; [|reflexivity].
  destruct (ticker_history yf _ START END w1) as [[[|row rows]|e] w2]; reflexivity.
Qed.

Variable upper : string -> string.

Lemma get_historical_unfold (sym : string) (w : W) :
  get_historical_stock_data yf START END upper sym w =
  match fetch_stock_data yf START END (upper sym) w with
  | (Raise e, w') => (Raise e, w')
  | (Ok (ErrorDict error), w') =>
      (Ok {| http_status := 404; status := "error"; message := Some error;
             symbol := None; data_source := None; date_range := None;
             body := None |}, w')
  | (Ok (DataDict m historicalData corporateActions), w') =>
      (Ok {| http_status := 200; status := "success"; message := None;
             symbol := Some (upper sym);
             data_source := Some "Yahoo Finance (via yfinance)";
             date_range := Some (isoformat START +:+ " to " +:+ isoformat END);
             body := Some (m, historicalData, corporateActions) |}, w')
  end.
Proof.
  unfold get_historical_stock_data, mbind, io_bind, mret, io_ret.
  destruct (fetch_stock_data yf START END (upper sym) w) as [[[error|m h c]|e] w'];
    reflexivity.
Qed.

(** X8: the historical endpoint answers 404 exactly when the history is
    empty.  Whenever it answers, the info record and the history were
    obtained; on an empty history the answer is the 404 with the message
    naming the upper-cased symbol, given before dividends and splits are
    asked for; on any other history it is the 200 with the upper-cased
    symbol, the 52-week metrics of the info record and one entry per row. *)
Theorem historical_404_iff_no_history (sym : string) (w w' : W) (r : response) :
  get_historical_stock_data yf START END upper sym w = (Ok r, w') ->
  exists info w1 rows w2,
    ticker_info yf (upper sym +:+ ".NS") w = (Ok info, w1) /\
    ticker_history yf (upper sym +:+ ".NS") START END w1 = (Ok rows, w2) /\
    ((rows = [] /\ w' = w2 /\
      r = {| http_status := 404; status := "error";
             message := Some ("No historical data found for " +:+ upper sym +:+
                              " on Yahoo Finance.");
             symbol := None; data_source := None; date_range := None;
             body := None |}) \/
     (rows <> [] /\ http_status r = 200%nat /\ status r = "success" /\
      symbol r = Some (upper sym) /\
      exists actions,
        body r = Some ({| low52Week := IndexApi.dict_get info "fiftyTwoWeekLow" PyNone;
                          high52Week := IndexApi.dict_get info "fiftyTwoWeekHigh" PyNone |},
                       map eod_of_row rows, actions))).
Proof.
  rewrite get_historical_unfold, fetch_stock_data_unfold.
  change (upper sym +:+ NSE_SUFFIX) with (upper sym +:+ ".NS").
  destruct (ticker_info yf _ w) as [[info|e] w1]; [|discriminate].
  destruct (ticker_history yf _ START END w1) as [[[|row rows]|e] w2] eqn:Hhistory;
    [| |discriminate].
  - intros [= <- <-]. exists info, w1, [], w2.
    split; [reflexivity|]. split; [exact Hhistory|].
    left. repeat split.
  - destruct (ticker_dividends yf _ w2) as [[dividends|e] w3]; [|discriminate].
    destruct (ticker_splits yf _ w3) as [[splits|e] w4]; [|discriminate].
    intros [= <- <-]. exists info, w1, (row :: rows), w2.
    split; [reflexivity|]. split; [exact Hhistory|].
    right. split; [discriminate|]. repeat split. eexists. reflexivity.
Qed.

(** X9: no exception of the backend is caught by the historical endpoint.
    If [ticker.info] or [ticker.history] raises, or, the history being
    non-empty, [ticker.dividends] or [ticker.splits] raises, the same
    exception leaves the endpoint. *)
Theorem historical_exceptions_escape (sym : string) (w : W) :
  (forall e w1,
     ticker_info yf (upper sym +:+ ".NS") w = (Raise e, w1) ->
     get_historical_stock_data yf START END upper sym w = (Raise e, w1)) /\
  (forall info w1,
     ticker_info yf (upper sym +:+ ".NS") w = (Ok info, w1) ->
     (forall e w2,
        ticker_history yf (upper sym +:+ ".NS") START END w1 = (Raise e, w2) ->
        get_historical_stock_data yf START END upper sym w = (Raise e, w2)) /\
     (forall row rows w2,
        ticker_history yf (upper sym +:+ ".NS") START END w1 = (Ok (row :: rows), w2) ->
        (forall e w3,
           ticker_dividends yf (upper sym +:+ ".NS") w2 = (Raise e, w3) ->
           get_historical_stock_data yf START END upper sym w = (Raise e, w3)) /\
        (forall dividends w3 e w4,
           ticker_dividends yf (upper sym +:+ ".NS") w2 = (Ok dividends, w3) ->
           ticker_splits yf (upper sym +:+ ".NS") w3 = (Raise e, w4) ->
           get_historical_stock_data yf START END upper sym w = (Raise e, w4)))).
Proof.
  rewrite get_historical_unfold, fetch_stock_data_unfold.
  change (upper sym +:+ NSE_SUFFIX) with (upper sym +:+ ".NS").
  split.
  - intros e w1 ->. reflexivity.
  - intros info w1 ->. split.
    + intros e w2 ->. reflexivity.
    + intros row rows w2 ->. split.
      * intros e w3 ->. reflexivity.
      * intros dividends w3 e w4 -> ->. reflexivity.
Qed.

End Fetch.




(** X11: corporateActions holds all the dividends, in the order of
    [ticker.dividends], followed by all the splits, in the order of
    [ticker.splits]; it is not ordered by date across the two.  Every
    dividend carries an amount in whole cents and every split a text
    starting with "1:". *)
Theorem corporate_actions_in_two_blocks {W : Type} (yf : yfinance W) (START END : date)
    (sym : string) (w w' : W) (m : metrics) (hist : list eod) (acts : list action) :
  fetch_stock_data yf START END sym w = (Ok (DataDict m hist acts), w') ->
  exists w2 dividends w3 splits,
    ticker_dividends yf (sym +:+ ".NS") w2 = (Ok dividends, w3) /\
    ticker_splits yf (sym +:+ ".NS") w3 = (Ok splits, w') /\
    map action_type acts
      = replicate (length dividends) "Dividend" ++ replicate (length splits) "Split" /\
    map action_date acts
      = map (fun row => isoformat row.1) dividends
        ++ map (fun row => isoformat row.1) splits /\
    Forall well_formed_action acts.
Proof.
  rewrite fetch_stock_data_unfold.
  change (sym +:+ NSE_SUFFIX) with (sym +:+ ".NS").
  destruct (ticker_info yf _ w) as [[info|e] w1]; [|discriminate].
  destruct (ticker_history yf _ START END w1) as [[[|row rows]|e] w2];
    try discriminate.
  destruct (ticker_dividends yf _ w2) as [[dividends|e] w3] eqn:Hdividends;
    [|discriminate].
  destruct (ticker_splits yf _ w3) as [[splits|e] w4] eqn:Hsplits; [|discriminate].
  intros [= <- <- <- <-]. exists w2, dividends, w3, splits.
  split; [exact Hdividends|]. split; [exact Hsplits|].
  rewrite !map_app, !map_map. cbn [action_type action_date dividend_action split_action].
  split; [|split; [reflexivity|]].
  - f_equal.
    + clear. induction dividends as [|d ds IH]; cbn; [reflexivity | f_equal; exact IH].
    + clear. induction splits as [|d ds IH]; cbn; [reflexivity | f_equal; exact IH].
  - apply Forall_app. split; apply Forall_forall; intros a Ha;
      apply list_elem_of_In, in_map_iff in Ha; destruct Ha as (x & <- & _).
    + left. split; [reflexivity|]. eexists. split; [reflexivity|].
      apply round2_whole_cents.
    + right. split; [reflexivity|]. eexists. reflexivity.
Qed.

Lemma round_half_even_integer (n : Z) : round_half_even (inject_Z n) = n.
Proof.
  pose proof (round_half_even_ge (inject_Z n) n (Qle_refl _)).
  pose proof (round_half_even_le (inject_Z n) n (Qle_refl _)). lia.
Qed.

(** X12: how a split is printed.  A split of ratio at least 2 (two new
    shares or more for an old one) is printed as "1:0", because the
    inverse of the ratio is at most one half and rounds to 0; a split of
    ratio 1/d is printed as "1:d". *)
Theorem split_value_rounds_to_zero (r : ratio) :
  (2 * Zpos (ratio_den r) <= Zpos (ratio_num r) -> split_value r = "1:0") /\
  (ratio_num r = 1%positive -> split_value r = "1:" +:+ decimal (Zpos (ratio_den r))).
Proof.
  destruct r as [n d]. cbn [ratio_num ratio_den]. unfold split_value.
  cbn [ratio_num ratio_den]. split.
  - intros Hratio.
    assert (Hzero : round_half_even (Zpos d # n) = 0).
    { assert (Hfloor : Qfloor (Zpos d # n) = 0).
      { unfold Qfloor. apply Z.div_small. lia. }
      unfold round_half_even. rewrite Hfloor.
      assert (Hhalf : ((Zpos d # n) - inject_Z 0 <= 1 # 2)%Q).
      { unfold Qle, Qminus, Qplus, Qopp, inject_Z. cbn. lia. }
      destruct (Qcompare_spec ((Zpos d # n) - inject_Z 0) (1 # 2)) as [_ | _ | Hgt];
        [reflexivity | reflexivity |].
      exfalso. apply (Qlt_not_le _ _ Hgt). exact Hhalf. }
    rewrite Hzero. reflexivity.
  - intros ->. change (Zpos d # 1) with (inject_Z (Zpos d)).
    rewrite round_half_even_integer. reflexivity.
Qed.

End Historical.

Section HistoricalRuns.
Import HistoricalApi MoreProps MoreFixtures.

(** Two days of history: a 200 with two entries. *)
Lemma historical_404_iff_no_history_witness :
  exists r,
    get_historical_stock_data (yf_history two_days) (ymd 2022 2 9) (ymd 2024 2 9)
      ascii_upper "sbin" tt = (Ok r, tt) /\
    exists info w1 rows w2,
      ticker_info (yf_history two_days) "SBIN.NS" tt = (Ok info, w1) /\
      ticker_history (yf_history two_days) "SBIN.NS" (ymd 2022 2 9) (ymd 2024 2 9) w1
        = (Ok rows, w2) /\
      (rows = [] /\ http_status r = 404%nat \/ rows <> [] /\ http_status r = 200%nat).
Proof.
  eexists. split; [reflexivity|].
  destruct (historical_404_iff_no_history (yf_history two_days) (ymd 2022 2 9)
              (ymd 2024 2 9) ascii_upper "sbin" tt tt _ eq_refl)
    as (info & w1 & rows & w2 & Hinfo & Hhistory & [(H0 & _ & ->) | (H1 & H200 & _)]).
  - exists info, w1, rows, w2. split; [exact Hinfo|]. split; [exact Hhistory|].
    left. split; [exact H0 | reflexivity].
  - exists info, w1, rows, w2. split; [exact Hinfo|]. split; [exact Hhistory|].
    right. split; [exact H1 | exact H200].
Defined.

(** A backend whose info lookup times out. *)
Lemma historical_exceptions_escape_witness :
  get_historical_stock_data yf_history_down (ymd 2022 2 9) (ymd 2024 2 9)
    ascii_upper "sbin" tt = (Raise Timeout, tt).
Proof.
  apply (proj1 (historical_exceptions_escape yf_history_down (ymd 2022 2 9)
                  (ymd 2024 2 9) ascii_upper "sbin" tt)).
  reflexivity.
Defined.


(** A dividend of 2023 comes before a split of 2014. *)
Lemma corporate_actions_in_two_blocks_witness :
  exists acts,
    map action_date acts = ["2023-06-01"; "2014-11-20"] /\
    map action_type acts = ["Dividend"; "Split"] /\
    Forall well_formed_action acts.
Proof.
  destruct (corporate_actions_in_two_blocks (yf_history two_days) (ymd 2022 2 9)
              (ymd 2024 2 9) "SBIN" tt tt _ _ _ eq_refl)
    as (w2 & dividends & w3 & splits & Hd & Hs & Htypes & Hdates & Hall).
  injection Hd as <-. injection Hs as <-.
  eexists. split; [exact Hdates|]. split; [exact Htypes | exact Hall].
Defined.

(** A 2-for-1 split. *)
Lemma split_value_rounds_to_zero_witness :
  split_value {| ratio_num := 2; ratio_den := 1 |} = "1:0".
Proof.
  apply (proj1 (split_value_rounds_to_zero {| ratio_num := 2; ratio_den := 1 |})).
  cbn. lia.
Defined.

End HistoricalRuns.

(* ====================================================================== *)
(** ** More on the per-symbol fetch and on the aggregate loop             *)
(* ====================================================================== *)

Section FetchMore.
Import IndexApi Props MoreProps.
Local Open Scope Q_scope.
Context {W : Type}.
Variable float_of_str : string -> option Q.

(** The nearness block returns null or a number, never a text. *)
Lemma low_nearness_result (price low high v : pyval) :
  low_nearness price low high = Ok v ->
  v = PyNone \/ exists n, v = PyNum n.
Proof.
  destruct v as [|n|s]; [left; reflexivity | right; eauto |].
  unfold low_nearness.
  destruct (truthy price && truthy low && truthy high); [|discriminate].
  destruct (py_ge price low) as [[|]|]; cbn; try discriminate.
  destruct (py_sub high low) as [range|]; cbn; [|discriminate].
  destruct (py_gt range (PyNum 0)) as [[|]|]; cbn; try discriminate.
  destruct (py_sub price low) as [above|]; cbn; [|discriminate].
  destruct (py_truediv above range) as [ratio|]; cbn; [|discriminate].
  destruct (py_mul_num ratio 100) as [[|x|t]|]; cbn; discriminate.
Qed.

(** A rounded price is null or the rounding of what [float] makes of the
    price. *)
Lemma rounded_price_result (price v : pyval) :
  rounded_price_of float_of_str price = Ok v ->
  (v = PyNone /\ truthy price = false) \/
  (exists p, py_float float_of_str price = Ok (PyNum p) /\ v = PyNum (float_round2 p)).
Proof.
  unfold rounded_price_of. destruct (truthy price); [|intros [= <-]; left; split; reflexivity].
  destruct (py_float float_of_str price) as [[|p|s]|] eqn:Hfloat; cbn; try discriminate.
  intros [= <-]. right. exists p. split; reflexivity.
Qed.

Variable yf : yfinance W.

(** X13: every snapshot is well formed, whatever the backend holds.  It
    carries the symbol asked for, the quote-page link of that symbol and
    no event; its lastPrice and its lowNearnessPercentage are null or
    numbers, never text, even when the info record holds text; and its
    name is the error name or the longName of the info record, the symbol
    itself when the record has none. *)
Theorem snapshot_is_well_formed (symbol : string) (w : W) :
  IndexApi.symbol (fetch_single_stock_metrics float_of_str yf symbol w).1 = symbol /\
  detailLink (fetch_single_stock_metrics float_of_str yf symbol w).1
    = "https://www.nseindia.com/get-quotes/equity?symbol=" +:+ symbol /\
  upcomingEvents (fetch_single_stock_metrics float_of_str yf symbol w).1 = [] /\
  (lastPrice (fetch_single_stock_metrics float_of_str yf symbol w).1 = PyNone \/
   exists r, lastPrice (fetch_single_stock_metrics float_of_str yf symbol w).1 = PyNum r) /\
  (lowNearnessPercentage (fetch_single_stock_metrics float_of_str yf symbol w).1 = PyNone \/
   exists n, lowNearnessPercentage (fetch_single_stock_metrics float_of_str yf symbol w).1
             = PyNum n) /\
  (name (fetch_single_stock_metrics float_of_str yf symbol w).1
     = PyStr ("Error/No Data for " +:+ symbol) \/
   exists info w1,
     ticker_info yf (symbol +:+ ".NS") w = (Ok info, w1) /\
     name (fetch_single_stock_metrics float_of_str yf symbol w).1
       = default (PyStr symbol) (info !! "longName")).
Proof.
  destruct (fetch_cases float_of_str yf symbol w) as [[w' ->] | (s & w' & -> & Hrun)].
  - cbn. repeat split; auto.
  - destruct Hrun as [info w1 price w2 near rounded Hinfo Hprice Hnear Hround]. cbn.
    repeat split.
    + destruct (rounded_price_result _ _ Hround) as [[-> _] | (p & _ & ->)]; eauto.
    + destruct (low_nearness_result _ _ _ _ Hnear) as [-> | (n & ->)]; eauto.
    + right. exists info, w1. split; [exact Hinfo | reflexivity].
Qed.

(** X14: where the price comes from.  A non-null previousClose is the
    price.  Without the key previousClose, a non-null
    regularMarketPreviousClose is the price.  With previousClose present
    and null, regularMarketPreviousClose is not looked at: the history is
    asked, and the price is its last close, null when it is empty. *)
Theorem previous_close_comes_first (ticker_symbol : string)
    (info : gmap string pyval) (w : W) :
  (forall v, info !! "previousClose" = Some v -> v <> PyNone ->
     last_price_of yf ticker_symbol info w = (Ok v, w)) /\
  (forall v, info !! "previousClose" = None ->
     info !! "regularMarketPreviousClose" = Some v -> v <> PyNone ->
     last_price_of yf ticker_symbol info w = (Ok v, w)) /\
  (forall closes w',
     info !! "previousClose" = Some PyNone ->
     ticker_history yf ticker_symbol w = (Ok closes, w') ->
     last_price_of yf ticker_symbol info w
     = (Ok (match closes with
            | [] => PyNone
            | _ :: _ => PyNum (List.last closes 0)
            end), w')).
Proof.
  unfold last_price_of, dict_get. split; [|split].
  - intros v -> Hv. cbn. destruct v; [contradiction | reflexivity | reflexivity].
  - intros v -> -> Hv. cbn. destruct v; [contradiction | reflexivity | reflexivity].
  - intros closes w' -> Hhistory. cbn. unfold mbind, io_bind. rewrite Hhistory.
    reflexivity.
Qed.

(** X15: the history is asked only when the info record has no close.
    When the record holds a non-null close, the snapshot and the world
    left behind are those of the info lookup alone: any other backend
    with the same [ticker.info] gives the same result. *)
Theorem history_asked_only_without_close (yf' : yfinance W) (symbol : string) (w : W)
    (info : gmap string pyval) (w1 : W) :
  ticker_info yf (symbol +:+ ".NS") w = (Ok info, w1) ->
  dict_get info "previousClose" (dict_get info "regularMarketPreviousClose" PyNone)
    <> PyNone ->
  ticker_info yf' (symbol +:+ ".NS") w = ticker_info yf (symbol +:+ ".NS") w ->
  (fetch_single_stock_metrics float_of_str yf symbol w).2 = w1 /\
  fetch_single_stock_metrics float_of_str yf' symbol w
  = fetch_single_stock_metrics float_of_str yf symbol w.
Proof.
  intros Hinfo Hclose Hsame.
  unfold fetch_single_stock_metrics, try_except.
  rewrite !metrics_body_unfold.
  change (symbol +:+ NSE_SUFFIX) with (symbol +:+ ".NS").
  rewrite Hsame, Hinfo. unfold last_price_of.
  destruct (dict_get info "previousClose" _) as [|p|s] eqn:Hprice;
    [contradiction | |]; cbn [is_None mret io_ret];
    destruct (low_nearness _ _ _); try (split; reflexivity);
    destruct (rounded_price_of float_of_str _); split; reflexivity.
Qed.

End FetchMore.

Section FetchMoreRuns.
Import IndexApi Props MoreProps Fixtures MoreFixtures.
Local Open Scope Q_scope.

(** An explicit null previous close beside a regular-market close of 150:
    the history (one close of 99) gives the price. *)
Lemma previous_close_comes_first_witness :
  last_price_of (yf_counting info_null_close) "SBIN.NS" info_null_close 0%nat
  = (Ok (PyNum 99), 1%nat).
Proof.
  apply (proj2 (proj2 (previous_close_comes_first (yf_counting info_null_close)
                         "SBIN.NS" info_null_close 0%nat)) [99 # 1] 1%nat);
    reflexivity.
Defined.

(** A record with a close: the counter of history calls stays at 0, and
    the backend with an empty history gives the same snapshot. *)
Lemma history_asked_only_without_close_witness :
  (fetch_single_stock_metrics no_float (yf_counting (info_priced 150 100 200)) "SBIN" 0%nat).2
    = 0%nat /\
  fetch_single_stock_metrics no_float
    {| ticker_info := ticker_info (yf_counting (info_priced 150 100 200));
       ticker_history := fun _ asked => (Ok [], asked) |} "SBIN" 0%nat
  = fetch_single_stock_metrics no_float (yf_counting (info_priced 150 100 200)) "SBIN" 0%nat.
Proof.
  apply (history_asked_only_without_close no_float
           (yf_counting (info_priced 150 100 200)) _ "SBIN" 0%nat
           (info_priced 150 100 200) 0%nat);
    [reflexivity | discriminate | reflexivity].
Defined.

End FetchMoreRuns.

Section LoopMore.
Import IndexApi Props MoreProps.
Context {W : Type}.
Variable float_of_str : string -> option Q.
Variable yf : yfinance W.

(** X17: the loop of the endpoints runs the symbols one after the other:
    the items for a list followed by another are the items for the first,
    followed by the items for the second fetched from the world the first
    run left; a symbol without price removes nothing but itself. *)
Theorem fetch_loop_concatenates (first second : list string) (w : W) :
  (fetch_loop float_of_str yf (first ++ second) [] w).1
  = (fetch_loop float_of_str yf first [] w).1
    ++ (fetch_loop float_of_str yf second []
          (fetch_loop float_of_str yf first [] w).2).1 /\
  (fetch_loop float_of_str yf (first ++ second) [] w).2
  = (fetch_loop float_of_str yf second []
       (fetch_loop float_of_str yf first [] w).2).2.
Proof.
  assert (Hgen : forall symbols results w0,
            fetch_loop float_of_str yf (symbols ++ second) results w0
            = fetch_loop float_of_str yf second
                (fetch_loop float_of_str yf symbols results w0).1
                (fetch_loop float_of_str yf symbols results w0).2).
  { induction symbols as [|s rest IH]; intros results w0; [reflexivity|].
    cbn [app fetch_loop].
    destruct (fetch_single_stock_metrics float_of_str yf s w0) as [snap w1].
    apply IH. }
  rewrite Hgen.
  rewrite (fetch_loop_filter float_of_str yf second
             (fetch_loop float_of_str yf first [] w).1).
  rewrite (fetch_loop_filter float_of_str yf second []). cbn. split; reflexivity.
Qed.

Hypothesis Hstable : stable yf.

Lemma fetch_stable (symbol : string) (w : W) :
  (fetch_single_stock_metrics float_of_str yf symbol w).2 = w.
Proof.
  unfold fetch_single_stock_metrics, try_except. rewrite metrics_body_unfold.
  pose proof (proj1 (Hstable (symbol +:+ NSE_SUFFIX) w)) as Hinfo.
  destruct (ticker_info yf _ w) as [[info|e] w1]; cbn in Hinfo; subst w1;
    [|reflexivity].
  unfold last_price_of.
  destruct (is_None _).
  - unfold mbind, io_bind, mret, io_ret.
    pose proof (proj2 (Hstable (symbol +:+ NSE_SUFFIX) w)) as Hhistory.
    destruct (ticker_history yf _ w) as [[closes|e] w2]; cbn in Hhistory; subst w2;
      [|reflexivity].
    destruct (low_nearness _ _ _); [|reflexivity].
    destruct (rounded_price_of float_of_str _); reflexivity.
  - cbn [mret io_ret].
    destruct (low_nearness _ _ _); [|reflexivity].
    destruct (rounded_price_of float_of_str _); reflexivity.
Qed.

Lemma fetch_each_stable (symbols : list string) (w : W) :
  fetch_each float_of_str yf symbols w
  = (map (fun s => (fetch_single_stock_metrics float_of_str yf s w).1) symbols, w).
Proof.
  induction symbols as [|s rest IH]; [reflexivity|].
  cbn [fetch_each map].
  pose proof (fetch_stable s w) as Hw.
  destruct (fetch_single_stock_metrics float_of_str yf s w) as [snap w1].
  cbn in Hw. subst w1. rewrite IH. reflexivity.
Qed.

Lemma fetch_twice_stable (symbols : list string) (w : W) :
  LegacyIndexApi.fetch_twice float_of_str yf symbols w
  = (List.filter has_price
       (map (fun s => (fetch_single_stock_metrics float_of_str yf s w).1) symbols), w).
Proof.
  induction symbols as [|s rest IH]; [reflexivity|].
  cbn [LegacyIndexApi.fetch_twice map List.filter].
  unfold LegacyIndexApi.fetch_single_stock_metrics.
  pose proof (fetch_stable s w) as Hw. unfold has_price at 1.
  destruct (fetch_single_stock_metrics float_of_str yf s w) as [snap w1] eqn:Hfetch.
  cbn in Hw. subst w1. cbn [fst].
  destruct (negb (is_None (lastPrice snap))).
  - rewrite Hfetch, IH. reflexivity.
  - exact IH.
Qed.

Lemma fetch_loop_stable (symbols : list string) (w : W) :
  fetch_loop float_of_str yf symbols [] w
  = (List.filter has_price
       (map (fun s => (fetch_single_stock_metrics float_of_str yf s w).1) symbols), w).
Proof. rewrite fetch_loop_filter, fetch_each_stable. reflexivity. Qed.

(** X18: on a stable backend the data of every report is, in list order,
    the priced ones among the snapshots of the symbols, each fetched on
    its own; the fallback branch of the older NIFTY 50 endpoint, which
    fetches every symbol twice, then returns the same data as the NIFTY
    50 endpoint of app/api/index_api.py. *)
Theorem stable_backend_data (nse : nse_archive) (w : W) :
  data (IndexApi.get_nifty50_data float_of_str yf nse w).1
  = List.filter has_price
      (map (fun s => (fetch_single_stock_metrics float_of_str yf s w).1)
           (get_nifty_50_symbols nse)) /\
  data (IndexApi.get_sensex_data float_of_str yf w).1
  = List.filter has_price
      (map (fun s => (fetch_single_stock_metrics float_of_str yf s w).1)
           get_sensex_30_symbols) /\
  data (LegacyIndexApi.get_nifty50_data float_of_str yf nse w).1
  = data (IndexApi.get_nifty50_data float_of_str yf nse w).1.
Proof.
  assert (Happ : data (IndexApi.get_nifty50_data float_of_str yf nse w).1
                 = List.filter has_price
                     (map (fun s => (fetch_single_stock_metrics float_of_str yf s w).1)
                          (get_nifty_50_symbols nse))).
  { rewrite app_get_nifty50_data_run, fetch_loop_stable. reflexivity. }
  split; [exact Happ|]. split.
  - rewrite app_get_sensex_data_run, fetch_loop_stable. reflexivity.
  - destruct (legacy_warns (get_nifty_50_symbols nse)) eqn:Hwarn.
    + rewrite (legacy_get_nifty50_data_warning _ _ _ _ Hwarn), Happ,
        fetch_twice_stable. reflexivity.
    + rewrite (legacy_get_nifty50_data_success _ _ _ _ Hwarn). reflexivity.
Qed.

End LoopMore.

Section LoopMoreRuns.
Import IndexApi Props MoreProps Fixtures MoreFixtures.

Lemma yf_const_stable (info : gmap string pyval) : stable (yf_const info).
Proof. intros ticker w. split; reflexivity. Qed.

(** A backend that answers every ticker the same, when the archive times
    out: the older endpoint and the newer one return the same items. *)
Lemma stable_backend_data_witness :
  data (LegacyIndexApi.get_nifty50_data no_float (yf_const (info_priced 150 100 200))
          nse_timeout tt).1
  = data (IndexApi.get_nifty50_data no_float (yf_const (info_priced 150 100 200))
            nse_timeout tt).1.
Proof.
  apply (stable_backend_data no_float (yf_const (info_priced 150 100 200))
           (yf_const_stable _) nse_timeout tt).
Defined.

End LoopMoreRuns.
